(** * StudyConnect 2.0: the client-side logic of the page components

  A shallow embedding of the list filters, the mock-database lookups and
  the event handlers of the pages under [src/app], followed by the
  properties they satisfy.

  Conventions.
  - A JavaScript string is a [string] that holds the bytes of its UTF-8
    form, as the source files do. Well-formed text contains another
    well-formed text as a run of bytes exactly when it contains it as a run
    of code units, so [includes], [startsWith] and [===] are read on the
    bytes. A string with an unpaired surrogate has no UTF-8 form and is
    not covered.
  - [toLowerCase] is the conversion of the Unicode Character Database on
    code points, with the tables of Unicode 14.0: the simple mappings, the
    one unconditional entry of SpecialCasing that lower-cases to more than
    one code point (U+0130) and the Final_Sigma rule for U+03A3.
  - [Array.prototype.filter] with a boolean callback is [List.filter].
  - A React state cell is a field of the page's state record; an event
    handler is a function from state to state, and what it hands to the
    browser (timers, alerts) is recorded in the state as well. *)

From Stdlib Require Import String Ascii List Bool Arith NArith Lia.
From stdpp Require Import gmap strings list fin_maps.
Import ListNotations.

Local Open Scope string_scope.
Local Open Scope list_scope.

(* ===================================================================== *)
(** * Part I: the program *)
(* ===================================================================== *)

(** ** String primitives used by the search boxes *)

Module JsString.

Local Open Scope N_scope.

(** *** UTF-8

    A string value is held as the bytes of its UTF-8 form. Case conversion
    works on code points, so the bytes are read as code points first; a
    byte that starts no well-formed sequence is kept as it is. *)

Inductive Item :=
| Code (c : N)       (* a code point *)
| Byte (b : ascii).  (* a byte outside any well-formed sequence *)

(** The six payload bits of a continuation byte, and what follows it. *)
Definition continuation (s : string) : option (N * string) :=
  match s with
  | String b r =>
      let n := N_of_ascii b in
      if (128 <=? n) && (n <? 192) then Some (n - 128, r) else None
  | EmptyString => None
  end.

(** The first item of a string and the rest. Overlong forms, surrogates
    and values above U+10FFFF are not well formed. *)
Definition next (s : string) : option (Item * string) :=
  match s with
  | EmptyString => None
  | String b0 r0 =>
      let n0 := N_of_ascii b0 in
      let raw := Some (Byte b0, r0) in
      if n0 <? 128 then Some (Code n0, r0)
      else if (194 <=? n0) && (n0 <? 224) then
        match continuation r0 with
        | Some (x1, r1) => Some (Code ((n0 - 192) * 64 + x1), r1)
        | None => raw
        end
      else if (224 <=? n0) && (n0 <? 240) then
        match continuation r0 with
        | Some (x1, r1) =>
            match continuation r1 with
            | Some (x2, r2) =>
                let c := (n0 - 224) * 4096 + x1 * 64 + x2 in
                if (2048 <=? c) && negb ((55296 <=? c) && (c <? 57344))
                then Some (Code c, r2) else raw
            | None => raw
            end
        | None => raw
        end
      else if (240 <=? n0) && (n0 <? 245) then
        match continuation r0 with
        | Some (x1, r1) =>
            match continuation r1 with
            | Some (x2, r2) =>
                match continuation r2 with
                | Some (x3, r3) =>
                    let c := (n0 - 240) * 262144 + x1 * 4096 + x2 * 64 + x3 in
                    if (65536 <=? c) && (c <? 1114112)
                    then Some (Code c, r3) else raw
                | None => raw
                end
            | None => raw
            end
        | None => raw
        end
      else raw
  end.

(** Every step takes at least one byte, so the length of the string is
    fuel enough. *)
Fixpoint decodeFrom (fuel : nat) (s : string) : list Item :=
  match fuel with
  | O => []
  | S fuel' =>
      match next s with
      | None => []
      | Some (it, rest) => it :: decodeFrom fuel' rest
      end
  end.

Definition decode (s : string) : list Item := decodeFrom (String.length s) s.

(** The UTF-8 form of a code point. *)
Definition utf8 (c : N) : string :=
  if c <? 128 then String (ascii_of_N c) EmptyString
  else if c <? 2048 then
    String (ascii_of_N (192 + c / 64))
      (String (ascii_of_N (128 + c mod 64)) EmptyString)
  else if c <? 65536 then
    String (ascii_of_N (224 + c / 4096))
      (String (ascii_of_N (128 + (c / 64) mod 64))
         (String (ascii_of_N (128 + c mod 64)) EmptyString))
  else
    String (ascii_of_N (240 + (c / 262144) mod 8))
      (String (ascii_of_N (128 + (c / 4096) mod 64))
         (String (ascii_of_N (128 + (c / 64) mod 64))
            (String (ascii_of_N (128 + c mod 64)) EmptyString))).

Fixpoint encode (l : list Item) : string :=
  match l with
  | [] => EmptyString
  | Code c :: rest => String.append (utf8 c) (encode rest)
  | Byte b :: rest => String b (encode rest)
  end.

(** *** The case tables (Unicode 14.0)

    [String.prototype.toLowerCase] applies the lower-case mapping of the
    Unicode Character Database to every code point, with the two entries of
    SpecialCasing that do not depend on a language: U+0130 becomes two code
    points, and U+03A3 becomes the final sigma where the Final_Sigma
    condition holds.

    A rule [(lo, hi, step, target)] maps the code points [lo], [lo + step],
    ... up to [hi] to [target], [target + step], ...; the rules are sorted
    by [lo]. A code point that a later version of the standard assigns is
    left as it is. *)

Definition lowerRulesTail : list (N * N * N * N) :=
  [
    (192, 214, 1, 224); (216, 222, 1, 248); (256, 302, 2, 257); (306, 310, 2, 307);
    (313, 327, 2, 314); (330, 374, 2, 331); (376, 376, 1, 255); (377, 381, 2, 378);
    (385, 385, 1, 595); (386, 388, 2, 387); (390, 390, 1, 596); (391, 391, 1, 392);
    (393, 394, 1, 598); (395, 395, 1, 396); (398, 398, 1, 477); (399, 399, 1, 601);
    (400, 400, 1, 603); (401, 401, 1, 402); (403, 403, 1, 608); (404, 404, 1, 611);
    (406, 406, 1, 617); (407, 407, 1, 616); (408, 408, 1, 409); (412, 412, 1, 623);
    (413, 413, 1, 626); (415, 415, 1, 629); (416, 420, 2, 417); (422, 422, 1, 640);
    (423, 423, 1, 424); (425, 425, 1, 643); (428, 428, 1, 429); (430, 430, 1, 648);
    (431, 431, 1, 432); (433, 434, 1, 650); (435, 437, 2, 436); (439, 439, 1, 658);
    (440, 440, 1, 441); (444, 444, 1, 445); (452, 452, 1, 454); (453, 453, 1, 454);
    (455, 455, 1, 457); (456, 456, 1, 457); (458, 458, 1, 460); (459, 475, 2, 460);
    (478, 494, 2, 479); (497, 497, 1, 499); (498, 500, 2, 499); (502, 502, 1, 405);
    (503, 503, 1, 447); (504, 542, 2, 505); (544, 544, 1, 414); (546, 562, 2, 547);
    (570, 570, 1, 11365); (571, 571, 1, 572); (573, 573, 1, 410); (574, 574, 1, 11366);
    (577, 577, 1, 578); (579, 579, 1, 384); (580, 580, 1, 649); (581, 581, 1, 652);
    (582, 590, 2, 583); (880, 882, 2, 881); (886, 886, 1, 887); (895, 895, 1, 1011);
    (902, 902, 1, 940); (904, 906, 1, 941); (908, 908, 1, 972); (910, 911, 1, 973);
    (913, 929, 1, 945); (932, 939, 1, 964); (975, 975, 1, 983); (984, 1006, 2, 985);
    (1012, 1012, 1, 952); (1015, 1015, 1, 1016); (1017, 1017, 1, 1010); (1018, 1018, 1, 1019);
    (1021, 1023, 1, 891); (1024, 1039, 1, 1104); (1040, 1071, 1, 1072); (1120, 1152, 2, 1121);
    (1162, 1214, 2, 1163); (1216, 1216, 1, 1231); (1217, 1229, 2, 1218); (1232, 1326, 2, 1233);
    (1329, 1366, 1, 1377); (4256, 4293, 1, 11520); (4295, 4295, 1, 11559); (4301, 4301, 1, 11565);
    (5024, 5103, 1, 43888); (5104, 5109, 1, 5112); (7312, 7354, 1, 4304); (7357, 7359, 1, 4349);
    (7680, 7828, 2, 7681); (7838, 7838, 1, 223); (7840, 7934, 2, 7841); (7944, 7951, 1, 7936);
    (7960, 7965, 1, 7952); (7976, 7983, 1, 7968); (7992, 7999, 1, 7984); (8008, 8013, 1, 8000);
    (8025, 8031, 2, 8017); (8040, 8047, 1, 8032); (8072, 8079, 1, 8064); (8088, 8095, 1, 8080);
    (8104, 8111, 1, 8096); (8120, 8121, 1, 8112); (8122, 8123, 1, 8048); (8124, 8124, 1, 8115);
    (8136, 8139, 1, 8050); (8140, 8140, 1, 8131); (8152, 8153, 1, 8144); (8154, 8155, 1, 8054);
    (8168, 8169, 1, 8160); (8170, 8171, 1, 8058); (8172, 8172, 1, 8165); (8184, 8185, 1, 8056);
    (8186, 8187, 1, 8060); (8188, 8188, 1, 8179); (8486, 8486, 1, 969); (8490, 8490, 1, 107);
    (8491, 8491, 1, 229); (8498, 8498, 1, 8526); (8544, 8559, 1, 8560); (8579, 8579, 1, 8580);
    (9398, 9423, 1, 9424); (11264, 11311, 1, 11312); (11360, 11360, 1, 11361); (11362, 11362, 1, 619);
    (11363, 11363, 1, 7549); (11364, 11364, 1, 637); (11367, 11371, 2, 11368); (11373, 11373, 1, 593);
    (11374, 11374, 1, 625); (11375, 11375, 1, 592); (11376, 11376, 1, 594); (11378, 11378, 1, 11379);
    (11381, 11381, 1, 11382); (11390, 11391, 1, 575); (11392, 11490, 2, 11393); (11499, 11501, 2, 11500);
    (11506, 11506, 1, 11507); (42560, 42604, 2, 42561); (42624, 42650, 2, 42625); (42786, 42798, 2, 42787);
    (42802, 42862, 2, 42803); (42873, 42875, 2, 42874); (42877, 42877, 1, 7545); (42878, 42886, 2, 42879);
    (42891, 42891, 1, 42892); (42893, 42893, 1, 613); (42896, 42898, 2, 42897); (42902, 42920, 2, 42903);
    (42922, 42922, 1, 614); (42923, 42923, 1, 604); (42924, 42924, 1, 609); (42925, 42925, 1, 620);
    (42926, 42926, 1, 618); (42928, 42928, 1, 670); (42929, 42929, 1, 647); (42930, 42930, 1, 669);
    (42931, 42931, 1, 43859); (42932, 42946, 2, 42933); (42948, 42948, 1, 42900); (42949, 42949, 1, 642);
    (42950, 42950, 1, 7566); (42951, 42953, 2, 42952); (42960, 42960, 1, 42961); (42966, 42968, 2, 42967);
    (42997, 42997, 1, 42998); (65313, 65338, 1, 65345); (66560, 66599, 1, 66600); (66736, 66771, 1, 66776);
    (66928, 66964, 2, 66967); (66929, 66938, 1, 66968); (66940, 66954, 1, 66979); (66956, 66962, 1, 66995);
    (66964, 66965, 1, 67003); (68736, 68786, 1, 68800); (71840, 71871, 1, 71872); (93760, 93791, 1, 93792);
    (125184, 125217, 1, 125218) ].

Definition caseIgnorable : list (N * N) :=
  [
    (39, 39); (46, 46); (58, 58); (94, 94); (96, 96); (168, 168);
    (173, 173); (175, 175); (180, 180); (183, 184); (688, 879); (884, 885);
    (890, 890); (900, 901); (903, 903); (1155, 1161); (1369, 1369); (1375, 1375);
    (1425, 1469); (1471, 1471); (1473, 1474); (1476, 1477); (1479, 1479); (1524, 1524);
    (1536, 1541); (1552, 1562); (1564, 1564); (1600, 1600); (1611, 1631); (1648, 1648);
    (1750, 1757); (1759, 1768); (1770, 1773); (1807, 1807); (1809, 1809); (1840, 1866);
    (1958, 1968); (2027, 2037); (2042, 2042); (2045, 2045); (2070, 2093); (2137, 2139);
    (2184, 2184); (2192, 2193); (2200, 2207); (2249, 2306); (2362, 2362); (2364, 2364);
    (2369, 2376); (2381, 2381); (2385, 2391); (2402, 2403); (2417, 2417); (2433, 2433);
    (2492, 2492); (2497, 2500); (2509, 2509); (2530, 2531); (2558, 2558); (2561, 2562);
    (2620, 2620); (2625, 2626); (2631, 2632); (2635, 2637); (2641, 2641); (2672, 2673);
    (2677, 2677); (2689, 2690); (2748, 2748); (2753, 2757); (2759, 2760); (2765, 2765);
    (2786, 2787); (2810, 2815); (2817, 2817); (2876, 2876); (2879, 2879); (2881, 2884);
    (2893, 2893); (2901, 2902); (2914, 2915); (2946, 2946); (3008, 3008); (3021, 3021);
    (3072, 3072); (3076, 3076); (3132, 3132); (3134, 3136); (3142, 3144); (3146, 3149);
    (3157, 3158); (3170, 3171); (3201, 3201); (3260, 3260); (3263, 3263); (3270, 3270);
    (3276, 3277); (3298, 3299); (3328, 3329); (3387, 3388); (3393, 3396); (3405, 3405);
    (3426, 3427); (3457, 3457); (3530, 3530); (3538, 3540); (3542, 3542); (3633, 3633);
    (3636, 3642); (3654, 3662); (3761, 3761); (3764, 3772); (3782, 3782); (3784, 3789);
    (3864, 3865); (3893, 3893); (3895, 3895); (3897, 3897); (3953, 3966); (3968, 3972);
    (3974, 3975); (3981, 3991); (3993, 4028); (4038, 4038); (4141, 4144); (4146, 4151);
    (4153, 4154); (4157, 4158); (4184, 4185); (4190, 4192); (4209, 4212); (4226, 4226);
    (4229, 4230); (4237, 4237); (4253, 4253); (4348, 4348); (4957, 4959); (5906, 5908);
    (5938, 5939); (5970, 5971); (6002, 6003); (6068, 6069); (6071, 6077); (6086, 6086);
    (6089, 6099); (6103, 6103); (6109, 6109); (6155, 6159); (6211, 6211); (6277, 6278);
    (6313, 6313); (6432, 6434); (6439, 6440); (6450, 6450); (6457, 6459); (6679, 6680);
    (6683, 6683); (6742, 6742); (6744, 6750); (6752, 6752); (6754, 6754); (6757, 6764);
    (6771, 6780); (6783, 6783); (6823, 6823); (6832, 6862); (6912, 6915); (6964, 6964);
    (6966, 6970); (6972, 6972); (6978, 6978); (7019, 7027); (7040, 7041); (7074, 7077);
    (7080, 7081); (7083, 7085); (7142, 7142); (7144, 7145); (7149, 7149); (7151, 7153);
    (7212, 7219); (7222, 7223); (7288, 7293); (7376, 7378); (7380, 7392); (7394, 7400);
    (7405, 7405); (7412, 7412); (7416, 7417); (7468, 7530); (7544, 7544); (7579, 7679);
    (8125, 8125); (8127, 8129); (8141, 8143); (8157, 8159); (8173, 8175); (8189, 8190);
    (8203, 8207); (8216, 8217); (8228, 8228); (8231, 8231); (8234, 8238); (8288, 8292);
    (8294, 8303); (8305, 8305); (8319, 8319); (8336, 8348); (8400, 8432); (11388, 11389);
    (11503, 11505); (11631, 11631); (11647, 11647); (11744, 11775); (11823, 11823); (12293, 12293);
    (12330, 12333); (12337, 12341); (12347, 12347); (12441, 12446); (12540, 12542); (40981, 40981);
    (42232, 42237); (42508, 42508); (42607, 42610); (42612, 42621); (42623, 42623); (42652, 42655);
    (42736, 42737); (42752, 42785); (42864, 42864); (42888, 42890); (42994, 42996); (43000, 43001);
    (43010, 43010); (43014, 43014); (43019, 43019); (43045, 43046); (43052, 43052); (43204, 43205);
    (43232, 43249); (43263, 43263); (43302, 43309); (43335, 43345); (43392, 43394); (43443, 43443);
    (43446, 43449); (43452, 43453); (43471, 43471); (43493, 43494); (43561, 43566); (43569, 43570);
    (43573, 43574); (43587, 43587); (43596, 43596); (43632, 43632); (43644, 43644); (43696, 43696);
    (43698, 43700); (43703, 43704); (43710, 43711); (43713, 43713); (43741, 43741); (43756, 43757);
    (43763, 43764); (43766, 43766); (43867, 43871); (43881, 43883); (44005, 44005); (44008, 44008);
    (44013, 44013); (64286, 64286); (64434, 64450); (65024, 65039); (65043, 65043); (65056, 65071);
    (65106, 65106); (65109, 65109); (65279, 65279); (65287, 65287); (65294, 65294); (65306, 65306);
    (65342, 65342); (65344, 65344); (65392, 65392); (65438, 65439); (65507, 65507); (65529, 65531);
    (66045, 66045); (66272, 66272); (66422, 66426); (67456, 67461); (67463, 67504); (67506, 67514);
    (68097, 68099); (68101, 68102); (68108, 68111); (68152, 68154); (68159, 68159); (68325, 68326);
    (68900, 68903); (69291, 69292); (69446, 69456); (69506, 69509); (69633, 69633); (69688, 69702);
    (69744, 69744); (69747, 69748); (69759, 69761); (69811, 69814); (69817, 69818); (69821, 69821);
    (69826, 69826); (69837, 69837); (69888, 69890); (69927, 69931); (69933, 69940); (70003, 70003);
    (70016, 70017); (70070, 70078); (70089, 70092); (70095, 70095); (70191, 70193); (70196, 70196);
    (70198, 70199); (70206, 70206); (70367, 70367); (70371, 70378); (70400, 70401); (70459, 70460);
    (70464, 70464); (70502, 70508); (70512, 70516); (70712, 70719); (70722, 70724); (70726, 70726);
    (70750, 70750); (70835, 70840); (70842, 70842); (70847, 70848); (70850, 70851); (71090, 71093);
    (71100, 71101); (71103, 71104); (71132, 71133); (71219, 71226); (71229, 71229); (71231, 71232);
    (71339, 71339); (71341, 71341); (71344, 71349); (71351, 71351); (71453, 71455); (71458, 71461);
    (71463, 71467); (71727, 71735); (71737, 71738); (71995, 71996); (71998, 71998); (72003, 72003);
    (72148, 72151); (72154, 72155); (72160, 72160); (72193, 72202); (72243, 72248); (72251, 72254);
    (72263, 72263); (72273, 72278); (72281, 72283); (72330, 72342); (72344, 72345); (72752, 72758);
    (72760, 72765); (72767, 72767); (72850, 72871); (72874, 72880); (72882, 72883); (72885, 72886);
    (73009, 73014); (73018, 73018); (73020, 73021); (73023, 73029); (73031, 73031); (73104, 73105);
    (73109, 73109); (73111, 73111); (73459, 73460); (78896, 78904); (92912, 92916); (92976, 92982);
    (92992, 92995); (94031, 94031); (94095, 94111); (94176, 94177); (94179, 94180); (110576, 110579);
    (110581, 110587); (110589, 110590); (113821, 113822); (113824, 113827); (118528, 118573); (118576, 118598);
    (119143, 119145); (119155, 119170); (119173, 119179); (119210, 119213); (119362, 119364); (121344, 121398);
    (121403, 121452); (121461, 121461); (121476, 121476); (121499, 121503); (121505, 121519); (122880, 122886);
    (122888, 122904); (122907, 122913); (122915, 122916); (122918, 122922); (123184, 123197); (123566, 123566);
    (123628, 123631); (125136, 125142); (125252, 125259); (127995, 127999); (917505, 917505); (917536, 917631);
    (917760, 917999) ].

Definition casedRanges : list (N * N) :=
  [
    (65, 90); (97, 122); (170, 170); (181, 181); (186, 186); (192, 214);
    (216, 246); (248, 442); (444, 447); (452, 659); (661, 687); (880, 883);
    (886, 887); (891, 893); (895, 895); (902, 902); (904, 906); (908, 908);
    (910, 929); (931, 1013); (1015, 1153); (1162, 1327); (1329, 1366); (1376, 1416);
    (4256, 4293); (4295, 4295); (4301, 4301); (4304, 4346); (4349, 4351); (5024, 5109);
    (5112, 5117); (7296, 7304); (7312, 7354); (7357, 7359); (7424, 7467); (7531, 7543);
    (7545, 7578); (7680, 7957); (7960, 7965); (7968, 8005); (8008, 8013); (8016, 8023);
    (8025, 8025); (8027, 8027); (8029, 8029); (8031, 8061); (8064, 8116); (8118, 8124);
    (8126, 8126); (8130, 8132); (8134, 8140); (8144, 8147); (8150, 8155); (8160, 8172);
    (8178, 8180); (8182, 8188); (8450, 8450); (8455, 8455); (8458, 8467); (8469, 8469);
    (8473, 8477); (8484, 8484); (8486, 8486); (8488, 8488); (8490, 8493); (8495, 8500);
    (8505, 8505); (8508, 8511); (8517, 8521); (8526, 8526); (8544, 8575); (8579, 8580);
    (9398, 9449); (11264, 11387); (11390, 11492); (11499, 11502); (11506, 11507); (11520, 11557);
    (11559, 11559); (11565, 11565); (42560, 42605); (42624, 42651); (42786, 42863); (42865, 42887);
    (42891, 42894); (42896, 42954); (42960, 42961); (42963, 42963); (42965, 42969); (42997, 42998);
    (43002, 43002); (43824, 43866); (43872, 43880); (43888, 43967); (64256, 64262); (64275, 64279);
    (65313, 65338); (65345, 65370); (66560, 66639); (66736, 66771); (66776, 66811); (66928, 66938);
    (66940, 66954); (66956, 66962); (66964, 66965); (66967, 66977); (66979, 66993); (66995, 67001);
    (67003, 67004); (68736, 68786); (68800, 68850); (71840, 71903); (93760, 93823); (119808, 119892);
    (119894, 119964); (119966, 119967); (119970, 119970); (119973, 119974); (119977, 119980); (119982, 119993);
    (119995, 119995); (119997, 120003); (120005, 120069); (120071, 120074); (120077, 120084); (120086, 120092);
    (120094, 120121); (120123, 120126); (120128, 120132); (120134, 120134); (120138, 120144); (120146, 120485);
    (120488, 120512); (120514, 120538); (120540, 120570); (120572, 120596); (120598, 120628); (120630, 120654);
    (120656, 120686); (120688, 120712); (120714, 120744); (120746, 120770); (120772, 120779); (122624, 122633);
    (122635, 122654); (125184, 125251); (127280, 127305); (127312, 127337); (127344, 127369) ].

Definition lowerRules : list (N * N * N * N) := (65, 90, 1, 97) :: lowerRulesTail.

Fixpoint findRule (c : N) (rules : list (N * N * N * N)) : option N :=
  match rules with
  | [] => None
  | (lo, hi, step, target) :: rest =>
      if c <? lo then None
      else if (c <=? hi) && ((c - lo) mod step =? 0) then Some (target + (c - lo))
      else findRule c rest
  end.

Fixpoint inRanges (c : N) (ranges : list (N * N)) : bool :=
  match ranges with
  | [] => false
  | (lo, hi) :: rest =>
      if c <? lo then false
      else if c <=? hi then true
      else inRanges c rest
  end.

(** The lower-case mapping of one code point, out of context. *)
Definition lowerOf (c : N) : list N :=
  if c =? 304 then [105; 775]
  else match findRule c lowerRules with
       | Some target => [target]
       | None => [c]
       end.

(** What the Final_Sigma condition asks of a code point. A code point that
    is case-ignorable is skipped, whether it is cased or not. *)
Inductive CaseClass := Ignorable | Cased | Uncased.

Definition classOf (c : N) : CaseClass :=
  if inRanges c caseIgnorable then Ignorable
  else if inRanges c casedRanges then Cased
  else Uncased.

(** After any case-ignorable code points, a cased letter follows. *)
Fixpoint followedByCased (l : list Item) : bool :=
  match l with
  | Code c :: rest =>
      match classOf c with
      | Ignorable => followedByCased rest
      | Cased => true
      | Uncased => false
      end
  | _ => false
  end.

(** Left to right; [afterCased] says that the last code point before this
    one that is not case-ignorable is a cased letter. *)
Fixpoint lowerItems (afterCased : bool) (l : list Item) : list Item :=
  match l with
  | [] => []
  | Byte b :: rest => Byte b :: lowerItems false rest
  | Code c :: rest =>
      let out :=
        if c =? 931
        then [if afterCased && negb (followedByCased rest) then 962 else 963]
        else lowerOf c in
      let afterCased' :=
        match classOf c with
        | Ignorable => afterCased
        | Cased => true
        | Uncased => false
        end in
      map Code out ++ lowerItems afterCased' rest
  end.

(** [s.toLowerCase()] *)
Definition toLowerCase (s : string) : string :=
  encode (lowerItems false (decode s)).

(** [s.includes(sub)]: [sub] occurs in [s] starting at some position. *)
Fixpoint includes (s sub : string) : bool :=
  if String.prefix sub s then true
  else match s with
       | EmptyString => false
       | String _ s' => includes s' sub
       end.

(** [a === b] on strings *)
Definition strictEq (a b : string) : bool := String.eqb a b.

(** Truthiness of a string value: only the empty string is falsy. *)
Definition truthy (s : string) : bool := negb (String.eqb s "").

End JsString.

(** ** src/app/resources/page.tsx *)

Module Resources.
Import JsString.

Record Resource := mkResource {
  id : nat;
  title : string;
  subject : string;
  type : string;
  size : string;
  color : string;
  textColor : string
}.

Definition allResources : list Resource :=
  [ mkResource 1 "Calculus 101 Finals" "Mathematics" "PDF" "2.4 MB"
      "bg-red-50 dark:bg-red-900/20" "text-red-500 dark:text-red-400";
    mkResource 2 "Data Structures Notes" "Comp. Sci" "DOC" "1.1 MB"
      "bg-blue-50 dark:bg-blue-900/20" "text-blue-500 dark:text-blue-400";
    mkResource 3 "Physics Lab Results" "Physics" "XLS" "800 KB"
      "bg-green-50 dark:bg-green-900/20" "text-green-600 dark:text-green-400";
    mkResource 4 "Linear Algebra Intro" "Mathematics" "PDF" "3.2 MB"
      "bg-red-50 dark:bg-red-900/20" "text-red-500 dark:text-red-400";
    mkResource 5 "React.js Crash Course" "Comp. Sci" "PDF" "5.5 MB"
      "bg-blue-50 dark:bg-blue-900/20" "text-blue-500 dark:text-blue-400" ].

Definition categories : list string :=
  ["All"; "Mathematics"; "Comp. Sci"; "Physics"].

(** The two conjuncts of the filter callback. *)
Definition matchesSearch (searchQuery : string) (resource : Resource) : bool :=
  includes (toLowerCase (title resource)) (toLowerCase searchQuery).

Definition matchesCategory (selectedCategory : string) (resource : Resource) : bool :=
  strictEq selectedCategory "All" || strictEq (subject resource) selectedCategory.

(** [items.filter(resource => matchesSearch && matchesCategory)]; the page
    applies it to [allResources]. *)
Definition filterResources (items : list Resource)
    (searchQuery selectedCategory : string) : list Resource :=
  List.filter
    (fun resource =>
       matchesSearch searchQuery resource && matchesCategory selectedCategory resource)
    items.

Definition filteredResources (searchQuery selectedCategory : string) : list Resource :=
  filterResources allResources searchQuery selectedCategory.

End Resources.

(** ** src/app/chat/page.tsx (the chat inbox) *)

Module ChatInbox.
Import JsString.

Record Chat := mkChat {
  id : string;
  name : string;
  message : string;
  time : string;
  unread : nat;
  color : string
}.

Definition chats : list Chat :=
  [ mkChat "nomsa" "Nomsa Dlamini" "Did you get the answer for Q3?"
      "10:30 AM" 2 "bg-blue-400";
    mkChat "studygroup" "Study Group A" "Thabo: I'll bring the past papers."
      "Yesterday" 0 "bg-purple-400";
    mkChat "khotso" "Khotso Mokoena" "Thanks man, really appreciate it!"
      "Mon" 0 "bg-pink-400" ].

Definition matchesName (query : string) (chat : Chat) : bool :=
  includes (toLowerCase (name chat)) (toLowerCase query).

Definition filterChats (items : list Chat) (query : string) : list Chat :=
  List.filter (matchesName query) items.

Definition filteredChats (query : string) : list Chat := filterChats chats query.

End ChatInbox.

(** ** src/app/chat/new/page.tsx (the find-peers wizard) *)

Module FindPeers.
Import JsString.

Record Student := mkStudent {
  name : string;
  uni : string;
  year : string;
  course : string;
  status : string
}.

Definition mockStudents : list Student :=
  [ mkStudent "Sipho M." "ukzn" "3rd Year" "Comp Sci" "Looking for study buddy";
    mkStudent "Thando Z." "ukzn" "1st Year" "Mathematics" "Need help with Calc";
    mkStudent "Kyle V." "uct" "2nd Year" "Economics" "Exam prep group?";
    mkStudent "Lerato K." "wits" "Honours" "Physics" "Available to tutor";
    mkStudent "Jason D." "up" "1st Year" "Informatics" "Study Group A" ].

Definition yearFilters : list string :=
  ["All"; "1st Year"; "2nd Year"; "3rd Year"; "Honours"].

(** Rule 1: [selectedUni && s.uni !== selectedUni]; [selectedUni] is a
    [string | null], and both [null] and the empty string are falsy. *)
Definition failsUni (selectedUni : option string) (s : Student) : bool :=
  match selectedUni with
  | None => false
  | Some u => truthy u && negb (strictEq (uni s) u)
  end.

(** Rule 2: [selectedFilter !== "All" && s.year !== selectedFilter] *)
Definition failsYear (selectedFilter : string) (s : Student) : bool :=
  negb (strictEq selectedFilter "All") && negb (strictEq (year s) selectedFilter).

(** The filter callback, with its two early returns. *)
Definition keepStudent (selectedUni : option string) (selectedFilter : string)
    (s : Student) : bool :=
  if failsUni selectedUni s then false
  else if failsYear selectedFilter s then false
  else true.

Definition filterStudents (items : list Student)
    (selectedUni : option string) (selectedFilter : string) : list Student :=
  List.filter (keepStudent selectedUni selectedFilter) items.

Definition filteredStudents (selectedUni : option string) (selectedFilter : string)
    : list Student :=
  filterStudents mockStudents selectedUni selectedFilter.

End FindPeers.

(** ** src/app/resources/upload/page.tsx *)

Module UploadResource.

(** The part of a browser [File] the page can see. [size] is in bytes. *)
Record File := mkFile {
  file_name : string;
  file_size : N
}.

Inductive Timer := SubmitDone.

Record State := mkState {
  file : option File;
  isUploading : bool;
  timers : list (nat * Timer);   (* delay in ms, callback *)
  alerts : list string
}.

Definition initial : State := mkState None false [] [].

(** The hint under the drop zone; the only place the page names a limit. *)
Definition sizeHint : string := "PDF, DOCX, JPG (Max 10MB)".
Definition hintedLimit : N := 10 * 1024 * 1024.

Definition demoAlert : string :=
  "⚠️ PORTFOLIO DEMO MODE

This feature is simulated for demonstration purposes.
In a production environment, this file would be sent to a cloud storage bucket (e.g., AWS S3 or Firebase Storage) and the metadata saved to a database.

No data has been sent.".

(** [if (e.target.files && e.target.files[0]) setFile(e.target.files[0])] *)
Definition handleFileChange (files : option (list File)) (st : State) : State :=
  match files with
  | Some (f :: _) => mkState (Some f) (isUploading st) (timers st) (alerts st)
  | _ => st
  end.

(** How a handler ends: it returns, or it raises one of the validation
    errors the specification names. *)
Inductive UploadError := OversizeFile | UnsupportedType.

Inductive Completion (A : Type) :=
| Returned (a : A)
| Raised (e : UploadError).
Arguments Returned {A} a.
Arguments Raised {A} e.

(** [handleSubmit]: [setIsUploading(true)] and [setTimeout(..., 2000)].
    The body has no branch and no [throw]; it does not read [file]. *)
Definition handleSubmit (st : State) : Completion State :=
  Returned (mkState (file st) true (timers st ++ [(2000, SubmitDone)]) (alerts st)).

(** The timer callback: [setIsUploading(false)] and the demo [alert]. *)
Definition fireTimer (st : State) : State :=
  match timers st with
  | [] => st
  | (_, SubmitDone) :: rest =>
      mkState (file st) false rest (alerts st ++ [demoAlert])
  end.

(** The submit button is [disabled={!file || isUploading}]. *)
Definition submitDisabled (st : State) : bool :=
  match file st with
  | None => true
  | Some _ => isUploading st
  end.

(** One whole upload: pick the file, press the button, let the timer run. *)
Definition upload (f : File) : Completion State :=
  let st := handleFileChange (Some [f]) initial in
  if submitDisabled st then Returned st
  else match handleSubmit st with
       | Returned st' => Returned (fireTimer st')
       | Raised e => Raised e
       end.

End UploadResource.

(** ** src/app/profile/uploads/page.tsx *)

Module ManageUploads.

Record Upload := mkUpload {
  id : nat;
  name : string;
  type : string;
  size : string;
  date : string;
  autoDelete : string
}.

Record State := mkState {
  uploads : list Upload;
  deletingId : option nat;
  timers : list nat;      (* pending 1500 ms callbacks, each closed over its id *)
  alerts : list string
}.

Definition initialUploads : list Upload :=
  [ mkUpload 1 "Calculus 101 Finals" "PDF" "2.4 MB" "Oct 12, 2025" "Never";
    mkUpload 2 "Physics Lab Results" "XLS" "800 KB" "Oct 15, 2025" "Dec 31, 2025";
    mkUpload 3 "Project Proposal v2" "DOC" "1.1 MB" "Oct 20, 2025" "Never" ].

Definition initial : State := mkState initialUploads None [] [].

Definition demoAlert : string :=
  "⚠️ PORTFOLIO DEMO MODE

Deletion Simulated. In a production app, this would send a DELETE request to your API/Database.

The item will now be removed from the view.".

(** [prev.filter(item => item.id !== id)] *)
Definition removeId (id0 : nat) (prev : list Upload) : list Upload :=
  List.filter (fun item => negb (Nat.eqb (id item) id0)) prev.

(** [handleDelete(id)]; [confirmed] is what [confirm(...)] returned. *)
Definition handleDelete (confirmed : bool) (id0 : nat) (st : State) : State :=
  if negb confirmed then st
  else mkState (uploads st) (Some id0) (timers st ++ [id0]) (alerts st).

(** The oldest pending timer callback runs: alert, functional update of the
    list, spinner reset. All delays are equal, so callbacks run in the
    order they were scheduled. *)
Definition fireTimer (st : State) : State :=
  match timers st with
  | [] => st
  | id0 :: rest =>
      mkState (removeId id0 (uploads st)) None rest (alerts st ++ [demoAlert])
  end.

(** A confirmed delete carried through to its callback, from a state with
    nothing else pending. *)
Definition confirmedDelete (id0 : nat) (st : State) : State :=
  fireTimer (handleDelete true id0 st).

(** What the user can do on the page. *)
Inductive Event :=
| ClickRemove (id0 : nat) (confirmed : bool)
| TimerFires.

(** The Remove button of a row is [disabled={deletingId === file.id}]. *)
Definition removeDisabled (st : State) (id0 : nat) : bool :=
  match deletingId st with
  | Some d => Nat.eqb d id0
  | None => false
  end.

Definition step (st : State) (e : Event) : State :=
  match e with
  | ClickRemove id0 confirmed =>
      if removeDisabled st id0 then st else handleDelete confirmed id0 st
  | TimerFires => fireTimer st
  end.

Definition run (st : State) (es : list Event) : State := fold_left step es st.

End ManageUploads.

(** ** Property lookup on an object literal *)

Module JsObject.

(** An object literal is a finite map of its own properties whose prototype
    is [Object.prototype]; [obj[key]] looks at the own properties first and
    then at the prototype's. These are the names [Object.prototype]
    defines; each of them holds a function or an object, so each is
    truthy. *)
Definition objectPrototypeKeys : list string :=
  [ "constructor"; "__proto__"; "hasOwnProperty"; "isPrototypeOf";
    "propertyIsEnumerable"; "toLocaleString"; "toString"; "valueOf";
    "__defineGetter__"; "__defineSetter__";
    "__lookupGetter__"; "__lookupSetter__" ].

Definition inherited (key : string) : bool :=
  existsb (String.eqb key) objectPrototypeKeys.

(** The value of an expression whose static type is [A]. *)
Inductive Val (A : Type) :=
| Own (a : A)               (* a record of the table *)
| Builtin (key : string)    (* what [Object.prototype] holds under [key] *)
| Undefined.
Arguments Own {A} a.
Arguments Builtin {A} key.
Arguments Undefined {A}.

(** [obj[key]] *)
Definition get {A : Type} (obj : gmap string A) (key : string) : Val A :=
  match obj !! key with
  | Some a => Own a
  | None => if inherited key then Builtin key else Undefined
  end.

(** [a || b]: records, functions and objects are truthy, [undefined] is not. *)
Definition or {A : Type} (a b : Val A) : Val A :=
  match a with
  | Undefined => b
  | _ => a
  end.

(** A render either produces the page or throws a [TypeError]. *)
Inductive Render (P : Type) :=
| Page (p : P)
| TypeError.
Arguments Page {P} p.
Arguments TypeError {P}.

End JsObject.

(** ** src/app/chat/[id]/page.tsx (the conversation view) *)

Module ChatDetailPage.
Import JsString JsObject.

Record ChatUser := mkChatUser {
  name : string;
  initials : string;
  status : string;
  color : string
}.

Record Message := mkMessage {
  text : string;
  time : string;
  isMe : bool;
  senderName : option string
}.

Definition nomsaUser : ChatUser := mkChatUser "Nomsa Dlamini" "ND" "Online" "bg-blue-400".

Definition chatData : gmap string ChatUser :=
  list_to_map
    [ ("nomsa", nomsaUser);
      ("khotso", mkChatUser "Khotso Mokoena" "KM" "Last seen 2h ago" "bg-pink-400");
      ("studygroup", mkChatUser "Study Group A" "SG" "3 Online" "bg-purple-400") ].

Definition messagesDB : gmap string (list Message) :=
  list_to_map
    [ ("nomsa",
        [ mkMessage "Hey Thabo! ðŸ‘‹ Are you coming online for the study group session later?"
            "10:30 AM" false None;
          mkMessage "Yes! I'll be there." "10:32 AM" true None;
          mkMessage "Did you get the answer for Q3?" "10:33 AM" false None ]);
      ("khotso",
        [ mkMessage "Yo, are you done with the CS assignment?" "Mon" true None;
          mkMessage "Yeah just submitted it now." "Mon" false None;
          mkMessage "Thanks man, really appreciate the help!" "Mon" false None ]);
      ("studygroup",
        [ mkMessage "Guys, are we meeting at the library or online?" "Yesterday"
            false (Some "Sipho");
          mkMessage "I think online is better today." "Yesterday" false (Some "Nomsa");
          mkMessage "Cool. I'll bring the past papers." "Yesterday" true None ]) ].

(** What the page shows: the header's user and one bubble per message. *)
Record View := mkView {
  user : Val ChatUser;
  bubbles : list Message
}.

(** [const user = chatData[chatId] || chatData['nomsa']] *)
Definition lookupUser (chatId : string) : Val ChatUser :=
  or (get chatData chatId) (get chatData "nomsa").

(** [const messages = messagesDB[chatId] || []] *)
Definition lookupMessages (chatId : string) : Val (list Message) :=
  or (get messagesDB chatId) (Own []).

(** The component. The header reads properties of [user], which does not
    throw on a function or an object; [messages.map(...)] is a call, and
    it throws when [messages] is not an array. *)
Definition ChatDetail (id : string) : Render View :=
  let chatId := toLowerCase id in
  let user := lookupUser chatId in
  let messages := lookupMessages chatId in
  match user with
  | Undefined => TypeError
  | _ =>
      match messages with
      | Own ms => Page (mkView user ms)
      | _ => TypeError
      end
  end.

End ChatDetailPage.

(** ** src/app/chat/profile/[id]/page.tsx (the profile view) *)

Module ChatProfile.
Import JsString JsObject.

Record Member := mkMember {
  member_name : string;
  member_role : string;
  you : bool
}.

(** The table is a [Record<string, any>]; its entries have one of two
    shapes, told apart by the [type] field. *)
Inductive Profile :=
| UserProfile (name initials color role bio : string)
    (commonGroups : list string) (email : string)
| GroupProfile (name initials color description : string)
    (members : list Member).

Definition nomsaProfile : Profile :=
  UserProfile "Nomsa Dlamini" "ND" "bg-blue-400" "Mathematics • 3rd Year"
    "Math major who loves calculus and statistics. Always down for a study session at the library!"
    ["Study Group A"; "Calc 101"] "nomsa.d@student.university.ac.za".

Definition profiles : gmap string Profile :=
  list_to_map
    [ ("nomsa", nomsaProfile);
      ("khotso",
        UserProfile "Khotso Mokoena" "KM" "bg-pink-400" "Computer Science • 2nd Year"
          "Coding is life. Currently struggling with Algorithms. Let's pair program!"
          ["CS 2024"; "Hackathon Team"] "khotso.m@student.university.ac.za");
      ("studygroup",
        GroupProfile "Study Group A" "SG" "bg-purple-400"
          "Official study group for Calculus 101. We meet every Tuesday and Thursday at the main library."
          [ mkMember "Thabo Nkosi" "Admin" true;
            mkMember "Nomsa Dlamini" "Member" false;
            mkMember "Khotso Mokoena" "Member" false;
            mkMember "Sipho Zulu" "Member" false ]) ].

(** [const profile = profiles[id.toLowerCase()] || profiles['nomsa']] *)
Definition lookupProfile (id : string) : Val Profile :=
  or (get profiles (toLowerCase id)) (get profiles "nomsa").

(** The component. A value that is not a table entry has no [type], so the
    user layout is taken, and [profile.commonGroups.map(...)] reads [map]
    of [undefined], which throws. *)
Definition ChatProfilePage (id : string) : Render Profile :=
  match lookupProfile id with
  | Own p => Page p
  | _ => TypeError
  end.

End ChatProfile.

(** ** The read marker of a conversation *)

Module ConversationStore.

(** Modelled from the spec: the conversation store of a backend the
    repository does not have. Messages are known by their ids; the log of a
    conversation lists them oldest first; each (conversation, peer) pair has
    at most one read marker, a pointer into that log. *)
Definition MsgId := nat.

Record Store := mkStore {
  logs : gmap string (list MsgId);          (* conversation id -> message log *)
  markers : gmap (string * string) MsgId    (* (conversation, peer) -> read marker *)
}.

(** Position of a message in a log. *)
Fixpoint indexOf (m : MsgId) (log : list MsgId) : option nat :=
  match log with
  | [] => None
  | x :: rest => if Nat.eqb x m then Some 0 else option_map S (indexOf m rest)
  end.

(** [m'] precedes [m] in the log. *)
Definition precedes (log : list MsgId) (m' m : MsgId) : Prop :=
  exists i j, indexOf m' log = Some i /\ indexOf m log = Some j /\ i < j.

Definition marker (st : Store) (c p : string) : option MsgId := markers st !! (c, p).

Definition setMarker (c p : string) (m : MsgId) (st : Store) : Store :=
  mkStore (logs st) (<[(c, p) := m]> (markers st)).

(** Modelled from the spec: [markRead(conversationId, peerId, uptoMessageId)],
    of which the repository has no implementation. It moves that peer's read
    marker forward only (never backward); a marker regression attempt is a
    silent no-op, not an error. The marker is a pointer into the
    conversation's message log, so a message that is not in the log of the
    conversation cannot be pointed at and the call changes nothing. *)
Definition markRead (c p : string) (upto : MsgId) (st : Store) : Store :=
  match logs st !! c with
  | None => st
  | Some log =>
      match indexOf upto log with
      | None => st
      | Some target =>
          match marker st c p with
          | None => setMarker c p upto st
          | Some cur =>
              match indexOf cur log with
              | None => setMarker c p upto st
              | Some now => if Nat.ltb now target then setMarker c p upto st else st
              end
          end
      end
  end.

End ConversationStore.

(** ** src/app/page.tsx (the dashboard) *)

Module Dashboard.
Import JsString.

Record Peer := mkPeer {
  id : string;
  name : string;
  role : string;
  initials : string;
  color : string
}.

Record Res := mkRes {
  res_id : nat;
  title : string;
  type : string;
  res_color : string;
  text : string
}.

Definition peers : list Peer :=
  [ mkPeer "nomsa" "Nomsa Dlamini" "Mathematics • 3rd Year" "ND" "bg-blue-400";
    mkPeer "khotso" "Khotso Mokoena" "Computer Science • 2nd Year" "KM" "bg-pink-400";
    mkPeer "sipho" "Sipho Zulu" "Physics • 1st Year" "SZ" "bg-yellow-400" ].

Definition resources : list Res :=
  [ mkRes 1 "Calculus 101 Finals" "PDF"
      "bg-red-50 dark:bg-red-900/20" "text-red-500 dark:text-red-400";
    mkRes 2 "Data Structures Notes" "DOC"
      "bg-blue-50 dark:bg-blue-900/20" "text-blue-500 dark:text-blue-400";
    mkRes 3 "Physics Lab Results" "XLS"
      "bg-green-50 dark:bg-green-900/20" "text-green-600 dark:text-green-400" ].

(** [p => p.name.toLowerCase().includes(query.toLowerCase())] *)
Definition peerMatches (query : string) (p : Peer) : bool :=
  includes (toLowerCase (name p)) (toLowerCase query).

(** [r => r.title.toLowerCase().includes(query.toLowerCase())] *)
Definition resMatches (query : string) (r : Res) : bool :=
  includes (toLowerCase (title r)) (toLowerCase query).

Definition filterPeers (items : list Peer) (query : string) : list Peer :=
  List.filter (peerMatches query) items.

Definition filterRes (items : list Res) (query : string) : list Res :=
  List.filter (resMatches query) items.

Definition filteredPeers (query : string) : list Peer := filterPeers peers query.
Definition filteredResources (query : string) : list Res := filterRes resources query.

(** [const isSearching = query.length > 0] *)
Definition isSearching (query : string) : bool := Nat.ltb 0 (String.length query).

(** [list.length > 0 ? list.map(card) : <note>] *)
Inductive Listing (A : Type) :=
| Cards (items : list A)
| EmptyNote.
Arguments Cards {A} items.
Arguments EmptyNote {A}.

Definition listing {A : Type} (l : list A) : Listing A :=
  if Nat.ltb 0 (length l) then Cards l else EmptyNote.

Inductive PeersHeader :=
| RecentPeers
| PeersFound (n : nat).

(** What [Home] renders for a query. *)
Record View := mkView {
  statsShown : bool;                              (* the two dashboard cards *)
  peersHeader : PeersHeader;
  peerList : Listing Peer;
  onlineDots : bool;                              (* the green dot on a peer card *)
  resourcesSection : option (nat * Listing Res)   (* count in the heading, results *)
}.

Definition Home (query : string) : View :=
  mkView
    (negb (isSearching query))
    (if isSearching query then PeersFound (length (filteredPeers query)) else RecentPeers)
    (listing (filteredPeers query))
    (negb (isSearching query))
    (if isSearching query
     then Some (length (filteredResources query), listing (filteredResources query))
     else None).

End Dashboard.

(** ** src/app/components/BottomNav.tsx *)

Module BottomNav.
Import JsString.

(** [s.startsWith(p)] *)
Definition startsWith (s p : string) : bool := String.prefix p s.

(** [(pathname.startsWith("/chat/") && pathname !== "/chat")
     || pathname === "/profile/edit"] *)
Definition shouldHide (pathname : string) : bool :=
  (startsWith pathname "/chat/" && negb (strictEq pathname "/chat"))
  || strictEq pathname "/profile/edit".

(** [pathname === path || pathname.startsWith(`${path}/`)] *)
Definition isActive (pathname path : string) : bool :=
  strictEq pathname path || startsWith pathname (path +:+ "/").

(** The four indicator dots, left to right. *)
Record Dots := mkDots {
  home : bool;
  resources : bool;
  chat : bool;
  profile : bool
}.

(** The component: [null] when hidden, the bar with its dots otherwise. *)
Definition BottomNav (pathname : string) : option Dots :=
  if shouldHide pathname then None
  else Some (mkDots (strictEq pathname "/")
                    (isActive pathname "/resources")
                    (isActive pathname "/chat")
                    (isActive pathname "/profile")).

(** The four [href]s of the bar. *)
Definition destinations : list string := ["/"; "/resources"; "/chat"; "/profile"].

End BottomNav.

(** ** src/app/chat/new/page.tsx: the steps of the wizard *)

Module Wizard.
Import JsString FindPeers.

Record University := mkUniversity {
  uni_id : string;
  uni_name : string;
  full : string;
  uni_color : string
}.

Definition universities : list University :=
  [ mkUniversity "ukzn" "UKZN" "University of KwaZulu-Natal" "bg-red-600";
    mkUniversity "uct" "UCT" "University of Cape Town" "bg-blue-700";
    mkUniversity "wits" "Wits" "University of the Witwatersrand" "bg-yellow-600";
    mkUniversity "up" "UP" "University of Pretoria" "bg-blue-900";
    mkUniversity "uj" "UJ" "University of Johannesburg" "bg-orange-600" ].

(** ["menu" | "universities" | "results"] *)
Inductive Step := Menu | Universities | Results.

Record State := mkState {
  step : Step;
  selectedUni : option string;
  selectedFilter : string
}.

(** The three [useState] initial values. *)
Definition initial : State := mkState Menu None "All".

(** What can be pressed. A button exists only on the screen that renders it:
    the "Find University" card on the menu, a university tile on the
    selection screen (one per entry of [universities]), a year chip on the
    results screen (one per entry of [yearFilters]); the back arrow is in
    the header of every screen. *)
Inductive Event :=
| Back
| FindUniversity
| PickUniversity (u : University)
| PickFilter (filter : string).

Definition University_eqb (a b : University) : bool :=
  strictEq (uni_id a) (uni_id b) && strictEq (uni_name a) (uni_name b) &&
  strictEq (full a) (full b) && strictEq (uni_color a) (uni_color b).

Definition rendered (st : State) (e : Event) : bool :=
  match e, step st with
  | Back, _ => true
  | FindUniversity, Menu => true
  | PickUniversity u, Universities => existsb (University_eqb u) universities
  | PickFilter f, Results => existsb (strictEq f) yearFilters
  | _, _ => false
  end.

(** The [onClick] handlers. [None]: the page is left
    ([window.history.back()]). *)
Definition handle (st : State) (e : Event) : option State :=
  match e with
  | Back =>
      match step st with
      | Menu => None
      | _ => Some (mkState Menu (selectedUni st) (selectedFilter st))
      end
  | FindUniversity => Some (mkState Universities (selectedUni st) (selectedFilter st))
  | PickUniversity u => Some (mkState Results (Some (uni_id u)) (selectedFilter st))
  | PickFilter f => Some (mkState (step st) (selectedUni st) f)
  end.

(** A press on something the screen does not show is no event at all. *)
Definition press (st : State) (e : Event) : option State :=
  if rendered st e then handle st e else Some st.

Fixpoint run (st : State) (es : list Event) : option State :=
  match es with
  | [] => Some st
  | e :: rest =>
      match press st e with
      | Some st' => run st' rest
      | None => None
      end
  end.

(** The header title. *)
Definition title (st : State) : string :=
  match step st with
  | Menu => "New Message"
  | Universities => "Select University"
  | Results => "Find Students"
  end.

(** [universities.find(u => u.id === selectedUni)?.name] *)
Definition shownUniversity (st : State) : option string :=
  match selectedUni st with
  | None => None
  | Some sel =>
      option_map uni_name (List.find (fun u => strictEq (uni_id u) sel) universities)
  end.

(** The students the results screen lists. *)
Definition listed (st : State) : list Student :=
  filteredStudents (selectedUni st) (selectedFilter st).

End Wizard.

(** ** src/app/resources/upload/page.tsx: the form as the user drives it *)

Module UploadForm.
Import JsString UploadResource.

Inductive Event :=
| ChooseFile (files : option (list File))   (* the file input changes *)
| PressUpload (title : string)              (* the submit button, with the title typed *)
| TimerFires.

(** The submit button is [disabled={!file || isUploading}], and the title
    input is [required]: the browser does not raise [submit] for an empty
    title. *)
Definition press (st : State) (e : Event) : State :=
  match e with
  | ChooseFile files => handleFileChange files st
  | PressUpload title =>
      if submitDisabled st || strictEq title "" then st
      else match handleSubmit st with
           | Returned st' => st'
           | Raised _ => st
           end
  | TimerFires => fireTimer st
  end.

Definition run (st : State) (es : list Event) : State := fold_left press es st.

End UploadForm.

(** ** src/app/chat/[id]/page.tsx: what a bubble and the input show *)

Module ChatDetailView.
Import JsString ChatDetailPage.

Definition palette : list string :=
  ["text-purple-500"; "text-yellow-600"; "text-pink-500"].

(** [!msg.isMe && msg.senderName && <p className={palette[index % 3]}>...]:
    the label above a bubble, with the class the array lookup yields
    ([None] would be [undefined]). *)
Definition senderLabel (index : nat) (msg : Message) : option (option string * string) :=
  if isMe msg then None
  else match senderName msg with
       | Some n => if truthy n then Some (nth_error palette (index mod 3), n) else None
       | None => None
       end.

(** [msg.isMe ? 'justify-end' : 'justify-start'] *)
Definition bubbleSide (msg : Message) : string :=
  if isMe msg then "justify-end" else "justify-start".

(** [chatId === 'studygroup' || chatId === 'khotso' ? 'Yesterday' : 'Today'] *)
Definition dateDivider (chatId : string) : string :=
  if strictEq chatId "studygroup" || strictEq chatId "khotso" then "Yesterday" else "Today".

(** [s.split(sep)] for a separator of one code unit. *)
Fixpoint split (sep : ascii) (s : string) : list string :=
  match s with
  | EmptyString => [EmptyString]
  | String c rest =>
      if Ascii.eqb c sep then EmptyString :: split sep rest
      else match split sep rest with
           | h :: t => String c h :: t
           | [] => [String c EmptyString]
           end
  end.

(** [name.split(' ')[0]] *)
Definition firstWord (name : string) : option string :=
  nth_error (split " "%char name) 0.

(** [`Message ${user.name.split(' ')[0]}...`] *)
Definition placeholder (u : ChatUser) : option string :=
  option_map (fun w => "Message " +:+ w +:+ "...") (firstWord (ChatDetailPage.name u)).

End ChatDetailView.

(** ** src/app/chat/profile/[id]/page.tsx: the fields both layouts read *)

Module ChatProfileView.
Import JsString ChatProfile.

Definition name (p : Profile) : string :=
  match p with
  | UserProfile n _ _ _ _ _ _ => n
  | GroupProfile n _ _ _ _ => n
  end.

Definition initials (p : Profile) : string :=
  match p with
  | UserProfile _ i _ _ _ _ _ => i
  | GroupProfile _ i _ _ _ => i
  end.

Definition color (p : Profile) : string :=
  match p with
  | UserProfile _ _ c _ _ _ _ => c
  | GroupProfile _ _ c _ _ => c
  end.

(** [profile.type === 'group' ? 'Exit Group' : 'Block User'] *)
Definition dangerButton (p : Profile) : string :=
  match p with
  | UserProfile _ _ _ _ _ _ _ => "Block User"
  | GroupProfile _ _ _ _ _ => "Exit Group"
  end.

(** The rows of the participants card; a user profile has no such card. *)
Definition participantRows (p : Profile) : option (list Member) :=
  match p with
  | UserProfile _ _ _ _ _ _ _ => None
  | GroupProfile _ _ _ _ members => Some members
  end.

End ChatProfileView.

(** ** src/app/profile/page.tsx: the dark mode switch *)

Module ProfilePage.
Import JsString.

(** [theme] as [useTheme()] hands it over: a name, or [undefined]. *)
Definition Theme := option string.

Definition isDark (theme : Theme) : bool :=
  match theme with
  | Some t => strictEq t "dark"
  | None => false
  end.

(** The argument of [setTheme] in the [onClick]:
    [theme === "dark" ? "light" : "dark"] *)
Definition nextTheme (theme : Theme) : string :=
  if isDark theme then "light" else "dark".

(** The click; [setTheme] stores its argument as the theme. *)
Definition toggle (theme : Theme) : Theme := Some (nextTheme theme).

(** [theme === "dark" ? "Light Mode" : "Dark Mode"] *)
Definition label (theme : Theme) : string :=
  if isDark theme then "Light Mode" else "Dark Mode".

(** The pill of the switch: green with the knob to the right when dark. *)
Definition switchOn (theme : Theme) : bool := isDark theme.

(** [if (!mounted) return null] *)
Definition ProfilePage (mounted : bool) (theme : Theme) : option (string * bool) :=
  if negb mounted then None else Some (label theme, switchOn theme).

End ProfilePage.

(** ** src/app/chat/page.tsx and src/app/resources/page.tsx: what is shown
    around the list *)

Module ListViews.
Import JsString.

(** The inbox. [{!query && <Active Now>}] *)
Definition activeNowShown (query : string) : bool := negb (truthy query).

(** [query ? `Results (${filteredChats.length})` : "Recent"] *)
Inductive InboxHeader :=
| Recent
| Results (n : nat).

Definition inboxHeader (query : string) : InboxHeader :=
  if truthy query then Results (length (ChatInbox.filteredChats query)) else Recent.

(** [filteredChats.length > 0 ? cards : "No chats found ..."] *)
Definition inboxList (query : string) : Dashboard.Listing ChatInbox.Chat :=
  Dashboard.listing (ChatInbox.filteredChats query).

(** [chat.unread > 0 && <badge>{chat.unread}</badge>] *)
Definition badge (chat : ChatInbox.Chat) : option nat :=
  if Nat.ltb 0 (ChatInbox.unread chat) then Some (ChatInbox.unread chat) else None.

(** [chat.unread > 0 ? <blue, bold> : <grey>] on the time and the preview. *)
Definition highlighted (chat : ChatInbox.Chat) : bool :=
  Nat.ltb 0 (ChatInbox.unread chat).

(** The resource page.
    [searchQuery ? `Searching for "${searchQuery}"` : "Recently Added"] *)
Inductive ResourcesHeading :=
| RecentlyAdded
| SearchingFor (searchQuery : string).

Definition resourcesHeading (searchQuery : string) : ResourcesHeading :=
  if truthy searchQuery then SearchingFor searchQuery else RecentlyAdded.

(** [filteredResources.length > 0 ? cards : "No resources found."] *)
Definition resourcesList (searchQuery selectedCategory : string)
    : Dashboard.Listing Resources.Resource :=
  Dashboard.listing (Resources.filteredResources searchQuery selectedCategory).

End ListViews.

(** ** Vocabulary of the properties *)

Module Vocabulary.
Import JsString.

(** [sub] occurs in [s]. *)
Definition substring_of (sub s : string) : Prop :=
  exists pre suf, s = pre +:+ sub +:+ suf.

(** A capital letter of ASCII. *)
Definition is_upper (b : ascii) : bool :=
  (65 <=? N_of_ascii b)%N && (N_of_ascii b <=? 90)%N.

(** Two bytes are the same letter of ASCII up to case, or the same byte: a
    small letter is 32 above its capital. *)
Definition same_letter (a b : ascii) : Prop :=
  a = b \/
  (is_upper a = true /\ N_of_ascii b = (N_of_ascii a + 32)%N) \/
  (is_upper b = true /\ N_of_ascii a = (N_of_ascii b + 32)%N).

(** Two strings are equal up to the case of the letters of ASCII. *)
Fixpoint ci_eq (s t : string) : Prop :=
  match s, t with
  | EmptyString, EmptyString => True
  | String a s', String b t' => same_letter a b /\ ci_eq s' t'
  | _, _ => False
  end.

(** [q] occurs in [t] up to the case of the letters of ASCII: some stretch
    of [t] is [q] letter for letter, capital or small. *)
Definition ci_substring_of (q t : string) : Prop :=
  exists pre mid suf, t = pre +:+ mid +:+ suf /\ ci_eq mid q.

(** The text is ASCII: every byte is below 128. *)
Fixpoint is_ascii (s : string) : bool :=
  match s with
  | EmptyString => true
  | String b rest => (N_of_ascii b <? 128)%N && is_ascii rest
  end.

(** The string holds no capital letter of ASCII. *)
Fixpoint no_capital (s : string) : bool :=
  match s with
  | EmptyString => true
  | String b rest => negb (is_upper b) && no_capital rest
  end.

(** The small letter of a capital of ASCII; any other byte as it is. *)
Definition ascii_lower (b : ascii) : ascii :=
  if is_upper b then ascii_of_N (N_of_ascii b + 32) else b.

(** The letters A to Z made small, byte by byte. *)
Fixpoint ascii_fold (s : string) : string :=
  match s with
  | EmptyString => EmptyString
  | String b rest => String (ascii_lower b) (ascii_fold rest)
  end.



(** A resource and a chat with Greek titles in capitals: Alpha Sigma, and
    the word for physics. *)
Definition alphaSigma : Resources.Resource :=
  Resources.mkResource 6 "ΑΣ" "Mathematics" "PDF" "1.0 MB"
    "bg-red-50 dark:bg-red-900/20" "text-red-500 dark:text-red-400".


(** The Kelvin sign, U+212A, whose lower case is the letter k. *)
Definition kelvinSign : string := "K".

(** What a selected university asks of a student: [null] and the empty
    string ask nothing. *)
Definition uniAccepts (selectedUni : option string) (s : FindPeers.Student) : Prop :=
  match selectedUni with
  | None => True
  | Some u => u = "" \/ FindPeers.uni s = u
  end.

(** What a selected year asks of a student: "All" asks nothing. *)
Definition yearAccepts (selectedFilter : string) (s : FindPeers.Student) : Prop :=
  selectedFilter = "All" \/ FindPeers.year s = selectedFilter.

(** The names of a list of students are in ascending order. *)
Fixpoint ascendingByName (l : list FindPeers.Student) : bool :=
  match l with
  | a :: rest =>
      match rest with
      | b :: _ => String.leb (FindPeers.name a) (FindPeers.name b) && ascendingByName rest
      | [] => true
      end
  | [] => true
  end.

(** A file of 20 MB, twice what the hint allows. *)
Definition oversized : UploadResource.File :=
  UploadResource.mkFile "lecture-recording.pdf" (20 * 1024 * 1024).

(** A click on Remove whose confirmation is declined. *)
Definition declined (e : ManageUploads.Event) : Prop := exists id0, e = ManageUploads.ClickRemove id0 false.

End Vocabulary.
Import Vocabulary.

(** ** Invariants of the pages' state *)

Module Invariants.

(** What every state of the wizard satisfies. *)
Definition wizard_ok (st : Wizard.State) : Prop :=
  In (Wizard.selectedFilter st) FindPeers.yearFilters /\
  match Wizard.selectedUni st with
  | None => Wizard.step st <> Wizard.Results
  | Some sel => exists u, In u Wizard.universities /\ sel = Wizard.uni_id u
  end.

(** What every state of the upload form satisfies: the spinner is on
    exactly while the one timer of a submit is pending, a submit needs a
    file, and nothing but the demo alert is ever shown. *)
Definition form_ok (st : UploadResource.State) : Prop :=
  ((UploadResource.isUploading st = true /\
    UploadResource.timers st = [(2000, UploadResource.SubmitDone)] /\
    UploadResource.file st <> None) \/
   (UploadResource.isUploading st = false /\ UploadResource.timers st = [])) /\
  Forall (fun a => a = UploadResource.demoAlert) (UploadResource.alerts st).

(** What every item read from a string satisfies: a byte is kept as a byte
    only when it is not ASCII. *)
Definition item_ok (it : JsString.Item) : Prop :=
  match it with
  | JsString.Code _ => True
  | JsString.Byte b => (128 <= N_of_ascii b)%N
  end.

(** The ids of the timers still pending do not occur in [ids]. *)
Definition pending_in (ids : list nat) (u : ManageUploads.Upload) : bool :=
  existsb (Nat.eqb (ManageUploads.id u)) ids.

End Invariants.
Import Invariants.

(* ===================================================================== *)
(** * Part II: properties *)
(* ===================================================================== *)

(** ** Substrings *)

Section StringFacts.
Import JsString.

Lemma prefix_true_iff (a s : string) :
  String.prefix a s = true <-> exists suf, s = a +:+ suf.
Proof.
  revert s. induction a as [|c a IH]; intros s.
  - split; [intros _; exists s; reflexivity | intros _; destruct s; reflexivity].
  - destruct s as [|d s]; simpl.
    + split; [discriminate | intros [suf H]; discriminate].
    + destruct (Ascii.ascii_dec c d) as [->|Hne].
      * rewrite IH. split; intros [suf H]; exists suf.
        -- now rewrite H.
        -- now injection H.
      * split; [discriminate | intros [suf H]; injection H; intros; congruence].
Qed.

Lemma includes_unfold (s sub : string) :
  includes s sub =
  if String.prefix sub s then true
  else match s with
       | EmptyString => false
       | String _ s' => includes s' sub
       end.
Proof. destruct s; reflexivity. Qed.

Lemma includes_true_iff (s sub : string) :
  includes s sub = true <-> substring_of sub s.
Proof.
  unfold substring_of. induction s as [|d s IH]; rewrite includes_unfold.
  - destruct (String.prefix sub "") eqn:Hp.
    + apply prefix_true_iff in Hp as [suf Hs].
      split; [intros _; exists "", suf; exact Hs | intros _; reflexivity].
    + split; [discriminate|]. intros [pre [suf H]].
      destruct pre; simpl in H; [|discriminate].
      assert (String.prefix sub "" = true) by (apply prefix_true_iff; eauto).
      congruence.
  - destruct (String.prefix sub (String d s)) eqn:Hp.
    + apply prefix_true_iff in Hp as [suf Hs].
      split; [intros _; exists "", suf; exact Hs | intros _; reflexivity].
    + rewrite IH. split.
      * intros [pre [suf H]]. exists (String d pre), suf. simpl. now rewrite H.
      * intros [pre [suf H]]. destruct pre as [|e pre]; simpl in H.
        -- assert (String.prefix sub (String d s) = true)
             by (apply prefix_true_iff; eauto).
           congruence.
        -- injection H as _ H. eauto.
Qed.

Lemma includes_empty (s : string) : includes s "" = true.
Proof. apply includes_true_iff. exists "", s. reflexivity. Qed.

Lemma strictEq_true_iff (a b : string) : strictEq a b = true <-> a = b.
Proof. apply String.eqb_eq. Qed.

Lemma strictEq_false_iff (a b : string) : strictEq a b = false <-> a <> b.
Proof. apply String.eqb_neq. Qed.

Lemma string_app_assoc (a b c : string) : (a +:+ b) +:+ c = a +:+ (b +:+ c).
Proof.
  induction a as [|x a IH]; [reflexivity|].
  change (String x ((a +:+ b) +:+ c) = String x (a +:+ b +:+ c)).
  now rewrite IH.
Qed.

Lemma string_app_nil_r (s : string) : s +:+ "" = s.
Proof.
  induction s as [|x s IH]; [reflexivity|].
  change (String x (s +:+ "") = String x s). now rewrite IH.
Qed.

Lemma substring_of_trans (a b c : string) :
  substring_of a b -> substring_of b c -> substring_of a c.
Proof.
  intros (p1 & s1 & ->) (p2 & s2 & ->).
  exists (p2 +:+ p1), (s1 +:+ s2). now rewrite !string_app_assoc.
Qed.

End StringFacts.

(** ** Letters of ASCII up to case *)

Section AsciiCase.
Import JsString.
Local Open Scope N_scope.

Lemma N_of_byte (n : N) : n < 256 -> N_of_ascii (ascii_of_N n) = n.
Proof. apply N_ascii_embedding. Qed.

Lemma byte_eq_iff (a b : ascii) : a = b <-> N_of_ascii a = N_of_ascii b.
Proof.
  split; [now intros ->|]. intros H.
  rewrite <- (ascii_N_embedding a), <- (ascii_N_embedding b). now rewrite H.
Qed.

Lemma is_upper_iff (b : ascii) :
  is_upper b = true <-> 65 <= N_of_ascii b /\ N_of_ascii b <= 90.
Proof. unfold is_upper. now rewrite andb_true_iff, !N.leb_le. Qed.

Lemma is_upper_false_iff (b : ascii) :
  is_upper b = false <-> N_of_ascii b < 65 \/ 90 < N_of_ascii b.
Proof. unfold is_upper. now rewrite andb_false_iff, !N.leb_gt. Qed.

(** The number of the small letter of a byte. *)
Lemma ascii_lower_N (b : ascii) :
  N_of_ascii (ascii_lower b) =
  if is_upper b then N_of_ascii b + 32 else N_of_ascii b.
Proof.
  unfold ascii_lower. destruct (is_upper b) eqn:Hu; [|reflexivity].
  apply is_upper_iff in Hu. apply N_of_byte. lia.
Qed.

(** Two bytes have the same small letter exactly when they are the same
    letter up to case. *)
Lemma ascii_lower_eq_iff (a b : ascii) :
  ascii_lower a = ascii_lower b <-> same_letter a b.
Proof.
  rewrite byte_eq_iff, !ascii_lower_N. unfold same_letter. rewrite byte_eq_iff.
  destruct (is_upper a) eqn:Ha, (is_upper b) eqn:Hb;
    repeat match goal with
           | H : is_upper _ = true |- _ => apply is_upper_iff in H
           | H : is_upper _ = false |- _ => apply is_upper_false_iff in H
           end;
    split; intros H;
    repeat match goal with
           | H : _ \/ _ |- _ => destruct H
           | H : _ /\ _ |- _ => destruct H
           | H : true = true |- _ => clear H
           | H : false = true |- _ => discriminate H
           end;
    try lia.
  all: first [ left; lia | right; left; split; [reflexivity | lia]
             | right; right; split; [reflexivity | lia] ].
Qed.

Lemma ascii_fold_eq_iff (a b : string) : ascii_fold a = ascii_fold b <-> ci_eq a b.
Proof.
  revert b. induction a as [|x a IH]; intros [|y b]; simpl;
    try (split; [discriminate | contradiction]).
  - tauto.
  - rewrite <- IH, <- ascii_lower_eq_iff. split.
    + now intros [= -> ->].
    + now intros [-> ->].
Qed.

Lemma ascii_fold_app (a b : string) :
  ascii_fold (a +:+ b) = ascii_fold a +:+ ascii_fold b.
Proof.
  induction a as [|c a IH]; [reflexivity|].
  change (String (ascii_lower c) (ascii_fold (a +:+ b)) =
          String (ascii_lower c) (ascii_fold a +:+ ascii_fold b)).
  now rewrite IH.
Qed.

Lemma ascii_fold_split (t a b : string) :
  ascii_fold t = a +:+ b ->
  exists a' b', t = a' +:+ b' /\ ascii_fold a' = a /\ ascii_fold b' = b.
Proof.
  revert t. induction a as [|c a IH]; intros t H.
  - exists "", t. auto.
  - destruct t as [|d t]; [discriminate H|].
    change (String (ascii_lower d) (ascii_fold t) = String c (a +:+ b)) in H.
    injection H as Hc Ht. destruct (IH _ Ht) as (a' & b' & -> & Ha & Hb).
    exists (String d a'), b'. simpl. rewrite Ha, Hc. auto.
Qed.

(** Containment after folding is containment up to case. *)
Lemma includes_fold_iff (t q : string) :
  includes (ascii_fold t) (ascii_fold q) = true <-> ci_substring_of q t.
Proof.
  rewrite includes_true_iff. unfold substring_of, ci_substring_of. split.
  - intros (pre & suf & H).
    apply ascii_fold_split in H as (pre' & rest & -> & Hpre & Hrest).
    apply ascii_fold_split in Hrest as (mid & suf' & -> & Hmid & Hsuf).
    exists pre', mid, suf'. split; [reflexivity|]. now apply ascii_fold_eq_iff.
  - intros (pre & mid & suf & -> & Hmid). apply ascii_fold_eq_iff in Hmid.
    exists (ascii_fold pre), (ascii_fold suf).
    now rewrite !ascii_fold_app, Hmid.
Qed.

Lemma is_ascii_app (a b : string) : is_ascii (a +:+ b) = is_ascii a && is_ascii b.
Proof.
  induction a as [|x a IH]; [reflexivity|].
  change (is_ascii (String x (a +:+ b)) = is_ascii (String x a) && is_ascii b).
  cbn [is_ascii]. now rewrite IH, andb_assoc.
Qed.

Lemma same_letter_ascii (a b : ascii) :
  same_letter a b -> (N_of_ascii a <? 128) = (N_of_ascii b <? 128).
Proof.
  intros [->|[[Hu H]|[Hu H]]]; [reflexivity| |];
    apply is_upper_iff in Hu;
    transitivity true; [|symmetry| |symmetry]; apply N.ltb_lt; lia.
Qed.

Lemma ci_eq_ascii (a b : string) : ci_eq a b -> is_ascii a = is_ascii b.
Proof.
  revert b. induction a as [|x a IH]; intros [|y b]; simpl; try contradiction;
    [reflexivity|].
  intros [Hxy Hab]. now rewrite (same_letter_ascii _ _ Hxy), (IH _ Hab).
Qed.

Lemma ci_eq_refl (a : string) : ci_eq a a.
Proof. induction a; simpl; [exact I | split; [now left | assumption]]. Qed.

(** What occurs in an ASCII text up to case is ASCII. *)
Lemma ci_substring_of_ascii (q t : string) :
  ci_substring_of q t -> is_ascii t = true -> is_ascii q = true.
Proof.
  intros (pre & mid & suf & -> & Hmid) Ht.
  rewrite !is_ascii_app, !andb_true_iff in Ht.
  rewrite <- (ci_eq_ascii _ _ Hmid). tauto.
Qed.

Lemma ci_substring_of_app (q more : string) : ci_substring_of q (q +:+ more).
Proof. exists "", q, more. split; [reflexivity | apply ci_eq_refl]. Qed.

Lemma ci_substring_of_trans (q q' t : string) :
  ci_substring_of q q' -> ci_substring_of q' t -> ci_substring_of q t.
Proof.
  rewrite <- !includes_fold_iff, !includes_true_iff.
  intros H1 H2. exact (substring_of_trans _ _ _ H1 H2).
Qed.

Lemma substring_ci_substring (q t : string) : substring_of q t -> ci_substring_of q t.
Proof.
  intros (pre & suf & ->). exists pre, q, suf. split; [reflexivity | apply ci_eq_refl].
Qed.

End AsciiCase.

(** ** [toLowerCase] *)

Section LowerCase.
Import JsString.
Local Open Scope N_scope.

Lemma encode_app (a b : list Item) : encode (a ++ b) = encode a +:+ encode b.
Proof.
  induction a as [|[c|x] a IH]; [reflexivity| |].
  - change (utf8 c +:+ encode (a ++ b) = (utf8 c +:+ encode a) +:+ encode b).
    now rewrite IH, string_app_assoc.
  - change (String x (encode (a ++ b)) = String x (encode a +:+ encode b)).
    now rewrite IH.
Qed.


(** An ASCII code point becomes its small letter, whatever surrounds it. *)
Lemma lowerItems_ascii_byte (b : ascii) :
  (N_of_ascii b <? 128) = true ->
  forall (flag : bool) (rest : list Item),
    exists flag',
      encode (lowerItems flag (Code (N_of_ascii b) :: rest)) =
      String (ascii_lower b) (encode (lowerItems flag' rest)).
Proof.
  destruct b as [[] [] [] [] [] [] [] []]; intros H flag rest;
    try discriminate H; eexists; reflexivity.
Qed.

Lemma next_ascii (b : ascii) (r : string) :
  (N_of_ascii b <? 128) = true -> next (String b r) = Some (Code (N_of_ascii b), r).
Proof. intros H. unfold next. now rewrite H. Qed.

Lemma continuation_length (s r : string) (x : N) :
  continuation s = Some (x, r) -> String.length s = S (String.length r).
Proof.
  destruct s as [|b s]; simpl; [discriminate|].
  destruct ((128 <=? N_of_ascii b) && (N_of_ascii b <? 192)); [|discriminate].
  now intros [= _ <-].
Qed.

(** Reading an item takes at least one byte. *)
Lemma next_length (s r : string) (it : Item) :
  next s = Some (it, r) -> (String.length r < String.length s)%nat.
Proof.
  destruct s as [|b0 r0]; [discriminate|]. unfold next.
  assert (Hraw : forall o, o = Some (Byte b0, r0) -> o = Some (it, r) ->
                           (String.length r < String.length (String b0 r0))%nat).
  { intros o -> [= _ <-]. simpl. lia. }
  destruct (N_of_ascii b0 <? 128); [intros [= _ <-]; simpl; lia|].
  repeat match goal with
         | |- context [if ?c then _ else _] => destruct c
         | |- context [match continuation ?x with _ => _ end] =>
             let H := fresh "Hc" in
             destruct (continuation x) as [[? ?]|] eqn:H;
             [apply continuation_length in H|]
         end;
    try (apply Hraw; reflexivity);
    intros [= _ <-]; simpl; lia.
Qed.


(** The length of the string is fuel enough, and more changes nothing. *)
Lemma decodeFrom_fuel (fuel : nat) :
  forall s, (String.length s <= fuel)%nat -> decodeFrom fuel s = decode s.
Proof.
  unfold decode. induction fuel as [fuel IH] using lt_wf_ind. intros s Hs.
  destruct s as [|b s]; [now destruct fuel|].
  destruct fuel as [|fuel]; [simpl in Hs; lia|].
  change (String.length (String b s)) with (S (String.length s)).
  cbn [decodeFrom]. destruct (next (String b s)) as [[it rest]|] eqn:Hn; [|reflexivity].
  apply next_length in Hn. simpl in Hn, Hs. f_equal.
  rewrite (IH fuel) by lia. symmetry. apply IH; lia.
Qed.

Lemma decode_next (s rest : string) (it : Item) :
  next s = Some (it, rest) -> decode s = it :: decode rest.
Proof.
  intros Hn. pose proof (next_length _ _ _ Hn) as Hl.
  unfold decode at 1. destruct s as [|b s]; [discriminate Hn|].
  change (String.length (String b s)) with (S (String.length s)).
  cbn [decodeFrom]. rewrite Hn. f_equal. apply decodeFrom_fuel. simpl in Hl. lia.
Qed.

(** ASCII text is folded letter by letter, whatever comes before it. *)
Lemma lower_ascii_exact (s : string) :
  is_ascii s = true -> forall flag, encode (lowerItems flag (decode s)) = ascii_fold s.
Proof.
  induction s as [|b r IH]; intros Ha flag; [reflexivity|].
  simpl in Ha. apply andb_true_iff in Ha as [Hb Hr].
  rewrite (decode_next _ _ _ (next_ascii b r Hb)).
  destruct (lowerItems_ascii_byte b Hb flag (decode r)) as [flag' ->].
  cbn [ascii_fold]. now rewrite IH.
Qed.

(** On ASCII text, [toLowerCase] makes the letters A to Z small and changes
    nothing else. *)
Lemma toLowerCase_ascii (s : string) : is_ascii s = true -> toLowerCase s = ascii_fold s.
Proof. intros H. now apply lower_ascii_exact. Qed.






(** The test the search boxes run, on ASCII text: containment up to case. *)
Lemma includes_lower_ascii_iff (t q : string) :
  is_ascii q = true -> is_ascii t = true ->
  (includes (toLowerCase t) (toLowerCase q) = true <-> ci_substring_of q t).
Proof.
  intros Hq Ht. rewrite (toLowerCase_ascii q Hq), (toLowerCase_ascii t Ht).
  apply includes_fold_iff.
Qed.


(** *** No capital letter is left *)

Lemma is_upper_of_N (n : N) :
  n < 256 -> is_upper (ascii_of_N n) = (65 <=? n) && (n <=? 90).
Proof. intros H. unfold is_upper. now rewrite N_of_byte. Qed.

Lemma offset_byte_not_upper (base x bound : N) :
  128 <= base -> x < bound -> base + bound <= 256 ->
  is_upper (ascii_of_N (base + x)) = false.
Proof.
  intros H1 H2 H3. rewrite is_upper_of_N by lia.
  apply andb_false_iff. right. apply N.leb_gt. lia.
Qed.

Lemma no_capital_app (a b : string) :
  no_capital (a +:+ b) = no_capital a && no_capital b.
Proof.
  induction a as [|x a IH]; [reflexivity|].
  change (no_capital (String x (a +:+ b)) = no_capital (String x a) && no_capital b).
  cbn [no_capital]. now rewrite IH, andb_assoc.
Qed.

(** The UTF-8 form of a code point that is no capital letter holds none. *)
Lemma utf8_no_capital (c : N) :
  (65 <=? c) && (c <=? 90) = false -> no_capital (utf8 c) = true.
Proof.
  intros Hc. unfold utf8.
  destruct (N.ltb_spec c 128) as [H1|H1].
  { cbn [no_capital]. rewrite is_upper_of_N by lia. now rewrite Hc. }
  assert (Hm : forall x, is_upper (ascii_of_N (128 + x mod 64)) = false).
  { intros x. apply (offset_byte_not_upper 128 _ 64); [lia | | lia].
    apply N.mod_upper_bound. discriminate. }
  destruct (N.ltb_spec c 2048) as [H2|H2].
  { cbn [no_capital]. rewrite Hm.
    rewrite (offset_byte_not_upper 192 (c / 64) 32); [reflexivity | lia | | lia].
    apply N.Div0.div_lt_upper_bound. lia. }
  destruct (N.ltb_spec c 65536) as [H3|H3].
  { cbn [no_capital]. rewrite !Hm.
    rewrite (offset_byte_not_upper 224 (c / 4096) 16); [reflexivity | lia | | lia].
    apply N.Div0.div_lt_upper_bound. lia. }
  cbn [no_capital]. rewrite !Hm.
  rewrite (offset_byte_not_upper 240 ((c / 262144) mod 8) 8); [reflexivity | lia | | lia].
  apply N.mod_upper_bound. discriminate.
Qed.

Lemma findRule_target (rules : list (N * N * N * N)) (bound c t : N) :
  forallb (fun r => bound <? snd r) rules = true ->
  findRule c rules = Some t -> bound < t.
Proof.
  induction rules as [|[[[lo hi] step] target] rules IH]; simpl; intros Hall H;
    [discriminate|].
  apply andb_true_iff in Hall as [Ht Hall].
  destruct (c <? lo); [discriminate|].
  destruct ((c <=? hi) && ((c - lo) mod step =? 0)).
  - injection H as <-. apply N.ltb_lt in Ht. lia.
  - now apply IH.
Qed.

Lemma lowerRules_targets : forallb (fun r => 90 <? snd r) lowerRules = true.
Proof. vm_compute. reflexivity. Qed.

(** No code point has a capital letter of ASCII in its lower case. *)
Lemma lowerOf_no_capital (c x : N) :
  In x (lowerOf c) -> (65 <=? x) && (x <=? 90) = false.
Proof.
  unfold lowerOf. destruct (c =? 304).
  { intros [<-|[<-|[]]]; reflexivity. }
  destruct (findRule c lowerRules) as [t|] eqn:Hf; intros [<-|[]].
  - pose proof (findRule_target _ 90 _ _ lowerRules_targets Hf).
    apply andb_false_iff. right. apply N.leb_gt. lia.
  - unfold lowerRules in Hf. cbn [findRule] in Hf.
    destruct (N.ltb_spec c 65) as [H1|H1].
    { apply andb_false_iff. left. apply N.leb_gt. lia. }
    destruct (N.leb_spec c 90) as [H2|H2].
    { rewrite N.mod_1_r in Hf. discriminate Hf. }
    apply andb_false_r.
Qed.

Lemma next_item_ok (s r : string) (it : Item) : next s = Some (it, r) -> item_ok it.
Proof.
  destruct s as [|b0 r0]; [discriminate|]. unfold next.
  destruct (N.ltb_spec (N_of_ascii b0) 128) as [H|H];
    [intros [= <- _]; exact I|].
  assert (Hraw : forall o, o = Some (Byte b0, r0) -> o = Some (it, r) -> item_ok it).
  { intros o -> [= <- _]. exact H. }
  repeat match goal with
         | |- context [if ?c then _ else _] => destruct c
         | |- context [match continuation ?x with _ => _ end] =>
             destruct (continuation x) as [[? ?]|]
         end;
    try (intros [= <- _]; exact I); apply Hraw; reflexivity.
Qed.

Lemma decodeFrom_item_ok (fuel : nat) : forall s, Forall item_ok (decodeFrom fuel s).
Proof.
  induction fuel as [|fuel IH]; intros s; cbn [decodeFrom]; [constructor|].
  destruct (next s) as [[it rest]|] eqn:Hn; [|constructor].
  constructor; [exact (next_item_ok _ _ _ Hn) | apply IH].
Qed.

Lemma lowerItems_no_capital (l : list Item) :
  Forall item_ok l -> forall flag, no_capital (encode (lowerItems flag l)) = true.
Proof.
  induction 1 as [|it l Hit Hl IH]; intros flag; [reflexivity|].
  destruct it as [c|b]; cbn [lowerItems].
  - rewrite encode_app, no_capital_app, IH, andb_true_r.
    assert (Hout : forall out : list N,
               (forall x, In x out -> (65 <=? x) && (x <=? 90) = false) ->
               no_capital (encode (map Code out)) = true).
    { induction out as [|x out IHo]; intros Hx; [reflexivity|].
      change (no_capital (utf8 x +:+ encode (map Code out)) = true).
      rewrite no_capital_app, utf8_no_capital, IHo; auto.
      - intros y Hy. apply Hx. now right.
      - apply Hx. now left. }
    apply Hout. destruct (c =? 931).
    + intros x [<-|[]]. now destruct (flag && negb (followedByCased l)).
    + apply lowerOf_no_capital.
  - cbn [encode no_capital]. rewrite IH, andb_true_r.
    simpl in Hit. unfold is_upper.
    apply negb_true_iff, andb_false_iff. right. apply N.leb_gt.
    eapply N.lt_le_trans; [|exact Hit]. reflexivity.
Qed.

(** The result of [toLowerCase] holds no capital letter of ASCII. *)
Lemma toLowerCase_no_capital (s : string) : no_capital (toLowerCase s) = true.
Proof. apply lowerItems_no_capital, decodeFrom_item_ok. Qed.

End LowerCase.

(** ** [Array.prototype.filter] *)

Section FilterFacts.
Context {A : Type}.
Implicit Types (f : A -> bool) (l : list A).

(** The callback only decides which elements stay; the survivors keep the
    order they had. *)
Lemma filter_sublist f l : List.filter f l `sublist_of` l.
Proof.
  induction l as [|x l IH]; simpl.
  - constructor.
  - destruct (f x); [apply sublist_skip | apply sublist_cons]; exact IH.
Qed.

Lemma filter_all f l : (forall x, In x l -> f x = true) -> List.filter f l = l.
Proof.
  induction l as [|x l IH]; simpl; intros H; [reflexivity|].
  rewrite (H x) by now left.
  f_equal. apply IH. intros y Hy. apply H. now right.
Qed.


End FilterFacts.

(** ** The search and filter callbacks *)

Section SearchFacts.
Import JsString Resources.

Lemma matchesSearch_lower_iff (q : string) (r : Resource) :
  matchesSearch q r = true <-> substring_of (toLowerCase q) (toLowerCase (title r)).
Proof. apply includes_true_iff. Qed.

Lemma matchesSearch_ascii_iff (q : string) (r : Resource) :
  is_ascii q = true -> is_ascii (title r) = true ->
  (matchesSearch q r = true <-> ci_substring_of q (title r)).
Proof. apply includes_lower_ascii_iff. Qed.


Lemma matchesCategory_iff (cat : string) (r : Resource) :
  matchesCategory cat r = true <-> cat = "All" \/ subject r = cat.
Proof.
  unfold matchesCategory. rewrite orb_true_iff, !strictEq_true_iff. reflexivity.
Qed.

Lemma matchesName_lower_iff (q : string) (c : ChatInbox.Chat) :
  ChatInbox.matchesName q c = true <->
  substring_of (toLowerCase q) (toLowerCase (ChatInbox.name c)).
Proof. apply includes_true_iff. Qed.

Lemma matchesName_ascii_iff (q : string) (c : ChatInbox.Chat) :
  is_ascii q = true -> is_ascii (ChatInbox.name c) = true ->
  (ChatInbox.matchesName q c = true <-> ci_substring_of q (ChatInbox.name c)).
Proof. apply includes_lower_ascii_iff. Qed.


Lemma failsUni_false_iff (selectedUni : option string) (s : FindPeers.Student) :
  FindPeers.failsUni selectedUni s = false <-> uniAccepts selectedUni s.
Proof.
  destruct selectedUni as [u|]; simpl; [|tauto].
  unfold truthy. rewrite andb_false_iff, !negb_false_iff.
  rewrite String.eqb_eq, strictEq_true_iff. reflexivity.
Qed.

Lemma failsYear_false_iff (selectedFilter : string) (s : FindPeers.Student) :
  FindPeers.failsYear selectedFilter s = false <-> yearAccepts selectedFilter s.
Proof.
  unfold FindPeers.failsYear, yearAccepts.
  rewrite andb_false_iff, !negb_false_iff, !strictEq_true_iff. reflexivity.
Qed.

Lemma keepStudent_iff (selectedUni : option string) (selectedFilter : string)
    (s : FindPeers.Student) :
  FindPeers.keepStudent selectedUni selectedFilter s = true <->
  FindPeers.failsUni selectedUni s = false /\
  FindPeers.failsYear selectedFilter s = false.
Proof.
  unfold FindPeers.keepStudent.
  destruct (FindPeers.failsUni selectedUni s), (FindPeers.failsYear selectedFilter s);
    intuition congruence.
Qed.

End SearchFacts.

(** ** Search over the resource library, the peers and the inbox *)

Section SearchProperties.
Import JsString.





(** C3. A filter keeps the items it returns in the relative order of its
    input; with the empty query and no category, university or year chosen
    it returns its whole input, unchanged. *)
Theorem filter_stable_and_identity :
  (forall (items : list Resources.Resource) (searchQuery selectedCategory : string),
      Resources.filterResources items searchQuery selectedCategory `sublist_of` items)
  /\
  (forall items : list Resources.Resource,
      Resources.filterResources items "" "All" = items)
  /\
  (forall (items : list ChatInbox.Chat) (query : string),
      ChatInbox.filterChats items query `sublist_of` items)
  /\
  (forall items : list ChatInbox.Chat, ChatInbox.filterChats items "" = items)
  /\
  (forall (items : list FindPeers.Student) selectedUni selectedFilter,
      FindPeers.filterStudents items selectedUni selectedFilter `sublist_of` items)
  /\
  (forall items : list FindPeers.Student,
      FindPeers.filterStudents items None "All" = items).
Proof.
  repeat apply conj.
  - intros. apply filter_sublist.
  - intros items. apply filter_all. intros r _.
    unfold Resources.matchesSearch. simpl. now rewrite includes_empty.
  - intros. apply filter_sublist.
  - intros items. apply filter_all. intros c _. apply includes_empty.
  - intros. apply filter_sublist.
  - intros items. now apply filter_all.
Qed.

(** C5. The library holds the resource titled "Calculus 101 Finals" with
    subject "Mathematics"; searching "calc" with no category returns exactly
    that resource, and searching "calc" under "Physics" returns nothing. In
    any library that holds such a resource the first search returns it and
    the second does not. *)
Theorem calculus_search_scenario :
  (exists r,
      In r Resources.allResources /\
      Resources.title r = "Calculus 101 Finals" /\
      Resources.subject r = "Mathematics" /\
      Resources.filteredResources "calc" "All" = [r]) /\
  Resources.filteredResources "calc" "Physics" = [] /\
  (forall (items : list Resources.Resource) r,
      In r items ->
      Resources.title r = "Calculus 101 Finals" ->
      Resources.subject r = "Mathematics" ->
      In r (Resources.filterResources items "calc" "All") /\
      ~ In r (Resources.filterResources items "calc" "Physics")).
Proof.
  repeat apply conj.
  - eexists. repeat split; [left; reflexivity | reflexivity..].
  - reflexivity.
  - intros items r Hin Ht Hs. unfold Resources.filterResources.
    rewrite !filter_In. unfold Resources.matchesSearch, Resources.matchesCategory.
    rewrite Ht, Hs. split; [split; [exact Hin | reflexivity]|].
    intros [_ H]. discriminate H.
Qed.

End SearchProperties.

(** ** Peer search *)

Section PeerSearch.
Import JsString FindPeers.

(** C4, as stated, fails. With no university and no year chosen (the state
    of the first render) the filter returns the whole pool in source order,
    "Thando Z." before "Kyle V.", which is not ascending by name. The page
    takes no query either: the result holds peers whose name has no "kyle"
    in it, and there is nothing to narrow it to "Kyle V.". *)
Lemma peer_search_not_sorted_by_name :
  map name (filteredStudents None "All") =
    ["Sipho M."; "Thando Z."; "Kyle V."; "Lerato K."; "Jason D."] /\
  String.ltb "Kyle V." "Thando Z." = true /\
  ascendingByName (filteredStudents None "All") = false /\
  List.filter (fun s => negb (includes (toLowerCase (name s)) (toLowerCase "kyle")))
    (filteredStudents None "All") <> [].
Proof. repeat split. discriminate. Qed.

(** C4, amended. The peer filter keeps exactly the students of the selected
    university (when one is selected) and of the selected year (when it is
    not "All"); whether a student is kept depends on the university and the
    year only, not on the name or the course; with nothing selected every
    peer is kept; the result is in the order of the pool. *)
Theorem peer_search_matching_and_order :
  forall (items : list Student) (selectedUni : option string) (selectedFilter : string),
    let result := filterStudents items selectedUni selectedFilter in
    (forall s, In s result <->
       In s items /\ uniAccepts selectedUni s /\ yearAccepts selectedFilter s) /\
    (forall s s', uni s = uni s' -> year s = year s' ->
       keepStudent selectedUni selectedFilter s =
       keepStudent selectedUni selectedFilter s') /\
    filterStudents items None "All" = items /\
    result `sublist_of` items.
Proof.
  intros items u y result. subst result. unfold filterStudents.
  repeat apply conj.
  - intros s.
    rewrite filter_In, keepStudent_iff, failsUni_false_iff, failsYear_false_iff.
    reflexivity.
  - intros s s' Hu Hy. unfold keepStudent, failsUni, failsYear.
    now rewrite Hu, Hy.
  - now apply filter_all.
  - apply filter_sublist.
Qed.

End PeerSearch.

(** ** Uploading a resource *)

Section UploadProperties.
Import UploadResource.

(** C6, as stated, fails. The oversized file is over the limit of the hint,
    and its upload returns normally: spinner off, no timer left, the demo
    alert shown. *)
Lemma oversized_upload_is_not_rejected :
  (hintedLimit <? file_size oversized)%N = true /\
  upload oversized = Returned (mkState (Some oversized) false [] [demoAlert]).
Proof. split; reflexivity. Qed.

(** C6, amended. The submit handler checks no size. For every file, over or
    under the 10 MB of the hint, the upload returns normally with that file
    selected, the spinner off and the demo alert shown, and the handler
    raises no error in any state. *)
Theorem upload_never_raises :
  (forall f : File,
      upload f = Returned (mkState (Some f) false [] [demoAlert])) /\
  (forall (st : State) (e : UploadError), handleSubmit st <> Raised e) /\
  (forall (st : State) (g : File),
      handleSubmit (mkState (Some g) (isUploading st) (timers st) (alerts st)) =
      Returned (mkState (Some g) true (timers st ++ [(2000, SubmitDone)]) (alerts st))).
Proof.
  repeat apply conj.
  - intros f. reflexivity.
  - intros st e. unfold handleSubmit. discriminate.
  - intros st g. reflexivity.
Qed.

End UploadProperties.

(** ** Managing uploads *)

Section DeleteProperties.
Import ManageUploads.

Lemma step_declined (st : State) (e : Event) : declined e -> step st e = st.
Proof. intros [id0 ->]. simpl. now destruct (removeDisabled st id0). Qed.

(** C7. A delete whose confirmation is declined returns at once: the list
    of uploads, the spinner, the pending timers and the alerts are what they
    were; so is the state after any number of declined deletes. The other
    action that can come to nothing, a file dialog closed without a file,
    leaves the upload form as it was. *)
Theorem declined_delete_changes_nothing :
  (forall (st : State) (id0 : nat), handleDelete false id0 st = st) /\
  (forall (st : State) (id0 : nat),
      uploads (step st (ClickRemove id0 false)) = uploads st) /\
  (forall (st : State) (es : list Event), Forall declined es -> run st es = st) /\
  (forall st : UploadResource.State,
      UploadResource.handleFileChange None st = st /\
      UploadResource.handleFileChange (Some []) st = st).
Proof.
  repeat apply conj.
  - reflexivity.
  - intros st id0. rewrite step_declined; [reflexivity | now exists id0].
  - intros st es. revert st. induction es as [|e es IH]; intros st Hall.
    + reflexivity.
    + inversion Hall as [|? ? He Hes]; subst. unfold run. simpl.
      rewrite (step_declined st e He). apply IH, Hes.
  - intros st. split; reflexivity.
Qed.

Lemma removeId_In (id0 : nat) (prev : list Upload) (u : Upload) :
  In u (removeId id0 prev) <-> In u prev /\ id u <> id0.
Proof.
  unfold removeId. rewrite filter_In, negb_true_iff, Nat.eqb_neq. reflexivity.
Qed.

Lemma removeId_absent (id0 : nat) (prev : list Upload) :
  (forall u, In u prev -> id u <> id0) -> removeId id0 prev = prev.
Proof.
  intros H. apply filter_all. intros u Hu.
  apply negb_true_iff, Nat.eqb_neq, H, Hu.
Qed.

(** C10. A confirmed delete, once its timer has run, leaves exactly the
    previous list without the entries that carry the deleted id: the entries
    that remain are entries of the previous list, unchanged and in their
    previous order; an id that no entry carries leaves the list as it was. *)
Theorem confirmed_delete_frame :
  forall (st : State) (id0 : nat),
    timers st = [] ->
    let st' := confirmedDelete id0 st in
    uploads st' = removeId id0 (uploads st) /\
    (forall u, In u (uploads st') <-> In u (uploads st) /\ id u <> id0) /\
    uploads st' `sublist_of` uploads st /\
    ((forall u, In u (uploads st) -> id u <> id0) -> uploads st' = uploads st).
Proof.
  intros st id0 Hno st'.
  assert (Hup : uploads st' = removeId id0 (uploads st)).
  { subst st'. unfold confirmedDelete, handleDelete, fireTimer. simpl.
    rewrite Hno. reflexivity. }
  rewrite Hup. repeat apply conj.
  - reflexivity.
  - intros u. apply removeId_In.
  - apply filter_sublist.
  - apply removeId_absent.
Qed.

(** On the page, a confirmed delete is a click on an enabled Remove button
    followed by the timer. *)
Lemma confirmedDelete_as_events (st : State) (id0 : nat) :
  removeDisabled st id0 = false ->
  run st [ClickRemove id0 true; TimerFires] = confirmedDelete id0 st.
Proof. intros Hen. unfold run. simpl. now rewrite Hen. Qed.

(** Whenever a timer callback runs, it removes its own id from the list as
    it is at that moment. *)
Lemma fireTimer_uploads (st : State) (id0 : nat) (rest : list nat) :
  timers st = id0 :: rest ->
  uploads (fireTimer st) = removeId id0 (uploads st) /\
  timers (fireTimer st) = rest /\
  deletingId (fireTimer st) = None.
Proof. intros Ht. unfold fireTimer. rewrite Ht. auto. Qed.

(** The second of the three mock uploads is removed, the others stay. *)
Lemma confirmed_delete_frame_witness :
  timers initial = [] /\
  uploads (confirmedDelete 2 initial) = removeId 2 (uploads initial) /\
  map id (uploads (confirmedDelete 2 initial)) = [1; 3].
Proof.
  split; [reflexivity|].
  split; [apply (confirmed_delete_frame initial 2); reflexivity | reflexivity].
Defined.

End DeleteProperties.

(** ** Lookups by id *)

Section LookupProperties.
Import JsString JsObject.

Lemma get_absent {A : Type} (obj : gmap string A) (key : string) :
  obj !! key = None -> inherited key = false -> get obj key = Undefined.
Proof. intros Hk Hi. unfold get. now rewrite Hk, Hi. Qed.

Lemma get_own {A : Type} (obj : gmap string A) (key : string) (a : A) :
  obj !! key = Some a -> get obj key = Own a.
Proof. intros Hk. unfold get. now rewrite Hk. Qed.

(** The three tables have the same keys. *)
Lemma tables_same_keys (key : string) :
  (ChatDetailPage.chatData !! key = None <-> ChatDetailPage.messagesDB !! key = None) /\
  (ChatDetailPage.chatData !! key = None <-> ChatProfile.profiles !! key = None).
Proof.
  unfold ChatDetailPage.chatData, ChatDetailPage.messagesDB, ChatProfile.profiles.
  rewrite <- !not_elem_of_list_to_map. simpl. tauto.
Qed.

(** An id that, in lower case, is neither a key of the tables nor a name
    that [Object.prototype] defines falls back: the conversation view shows
    Nomsa's header over no bubbles, the profile view shows Nomsa's profile. *)
Lemma unknown_id_falls_back (id : string) :
  ChatDetailPage.chatData !! toLowerCase id = None ->
  inherited (toLowerCase id) = false ->
  ChatDetailPage.ChatDetail id =
    Page (ChatDetailPage.mkView (Own ChatDetailPage.nomsaUser) []) /\
  ChatProfile.ChatProfilePage id = Page ChatProfile.nomsaProfile.
Proof.
  intros Hk Hi.
  destruct (tables_same_keys (toLowerCase id)) as [Hm Hp].
  split.
  - unfold ChatDetailPage.ChatDetail, ChatDetailPage.lookupUser,
      ChatDetailPage.lookupMessages.
    rewrite (get_absent _ _ Hk Hi), (get_absent _ _ (proj1 Hm Hk) Hi).
    reflexivity.
  - unfold ChatProfile.ChatProfilePage, ChatProfile.lookupProfile.
    rewrite (get_absent _ _ (proj1 Hp Hk) Hi). reflexivity.
Qed.

Lemma unknown_id_falls_back_example :
  ChatDetailPage.ChatDetail "Zama" =
    Page (ChatDetailPage.mkView (Own ChatDetailPage.nomsaUser) []) /\
  ChatProfile.ChatProfilePage "Zama" = Page ChatProfile.nomsaProfile.
Proof. apply unknown_id_falls_back; reflexivity. Qed.

(** C9, at the id "constructor". It is a key of none of the three tables,
    yet [obj["constructor"]] finds the function [Object] on the prototype:
    the value is truthy, no fallback is taken, [messages.map] and
    [profile.commonGroups.map] are not functions, and both pages throw
    instead of showing Nomsa. *)
Theorem unknown_id_constructor_throws :
  ChatDetailPage.chatData !! "constructor" = None /\
  ChatDetailPage.messagesDB !! "constructor" = None /\
  ChatProfile.profiles !! "constructor" = None /\
  ChatDetailPage.lookupUser "constructor" = Builtin "constructor" /\
  ChatDetailPage.lookupMessages "constructor" = Builtin "constructor" /\
  ChatDetailPage.ChatDetail "constructor" = TypeError /\
  ChatProfile.ChatProfilePage "constructor" = TypeError.
Proof. repeat split. Qed.

(** The same happens for every spelling that lower-cases to "constructor",
    and for "__proto__". *)
Lemma unknown_id_other_spellings :
  ChatDetailPage.ChatDetail "Constructor" = TypeError /\
  ChatProfile.ChatProfilePage "CONSTRUCTOR" = TypeError /\
  ChatDetailPage.ChatDetail "__proto__" = TypeError /\
  ChatProfile.ChatProfilePage "__proto__" = TypeError.
Proof. repeat split. Qed.

(** A name of [Object.prototype] that has a capital letter is out of reach:
    the id is lower-cased before the lookup. *)
Lemma unknown_id_toString_falls_back :
  ChatDetailPage.ChatDetail "toString" =
    Page (ChatDetailPage.mkView (Own ChatDetailPage.nomsaUser) []) /\
  ChatProfile.ChatProfilePage "hasOwnProperty" = Page ChatProfile.nomsaProfile.
Proof. repeat split. Qed.

End LookupProperties.

(** ** The read marker *)

Section ReadMarker.
Import ConversationStore.

Lemma indexOf_inj (log : list MsgId) (a b : MsgId) (i : nat) :
  indexOf a log = Some i -> indexOf b log = Some i -> a = b.
Proof.
  revert i. induction log as [|x log IH]; intros i Ha Hb; simpl in *.
  - discriminate.
  - destruct (Nat.eqb_spec x a) as [Hxa|Hxa], (Nat.eqb_spec x b) as [Hxb|Hxb].
    + congruence.
    + destruct (indexOf b log); simpl in Hb; congruence.
    + destruct (indexOf a log); simpl in Ha; congruence.
    + destruct (indexOf a log) as [ia|] eqn:Ea; simpl in Ha; [|discriminate].
      destruct (indexOf b log) as [ib|] eqn:Eb; simpl in Hb; [|discriminate].
      apply (IH ia); congruence.
Qed.

Lemma marker_setMarker (c p : string) (m : MsgId) (st : Store) :
  marker (setMarker c p m st) c p = Some m.
Proof. unfold marker, setMarker. simpl. apply lookup_insert_eq. Qed.

(** A call that asks for a position the marker has reached already changes
    nothing. *)
Lemma markRead_not_forward (c p : string) (upto cur : MsgId) (st : Store)
    (log : list MsgId) (target now : nat) :
  logs st !! c = Some log ->
  indexOf upto log = Some target ->
  marker st c p = Some cur ->
  indexOf cur log = Some now ->
  target <= now ->
  markRead c p upto st = st.
Proof.
  intros Hlog Hup Hm Hcur Hle. unfold markRead.
  rewrite Hlog, Hup, Hm, Hcur.
  destruct (Nat.ltb_spec now target); [lia | reflexivity].
Qed.

(** The marker never moves to an earlier position. *)
Lemma markRead_forward_only (c p : string) (upto cur : MsgId) (st : Store)
    (log : list MsgId) (now : nat) :
  logs st !! c = Some log ->
  marker st c p = Some cur ->
  indexOf cur log = Some now ->
  exists cur' now',
    marker (markRead c p upto st) c p = Some cur' /\
    indexOf cur' log = Some now' /\ now <= now'.
Proof.
  intros Hlog Hm Hcur. unfold markRead. rewrite Hlog.
  destruct (indexOf upto log) as [target|] eqn:Hup; [|exists cur, now; auto].
  rewrite Hm, Hcur. destruct (Nat.ltb_spec now target).
  - exists upto, target. rewrite marker_setMarker. repeat split; [exact Hup | lia].
  - exists cur, now. auto.
Qed.

(** C8, as stated, fails when the marker is already past [m]: in a log of
    three messages with the marker on the third, marking the second read and
    then the first leaves the marker on the third, not on the second. *)
Lemma marker_already_past_stays :
  let st := mkStore {[ "c1" := [1; 2; 3] ]} {[ ("c1", "nomsa") := 3 ]} in
  indexOf 1 [1; 2; 3] = Some 0 /\
  indexOf 2 [1; 2; 3] = Some 1 /\
  marker (markRead "c1" "nomsa" 1 (markRead "c1" "nomsa" 2 st)) "c1" "nomsa" = Some 3.
Proof. simpl. repeat split. Qed.

(** C8, amended. When [m'] precedes [m] in the log of the conversation,
    [markRead c p m'] after [markRead c p m] is a no-op: it returns the store
    it was given. After the two calls the marker is at [m] if it was unset or
    not past [m] before them, and where it was if it was past [m]. *)
Theorem markRead_regression_is_noop :
  forall (st : Store) (c p : string) (m m' : MsgId) (log : list MsgId),
    logs st !! c = Some log ->
    precedes log m' m ->
    let st1 := markRead c p m st in
    let st2 := markRead c p m' st1 in
    st2 = st1 /\
    ((marker st c p = None \/
      exists cur, marker st c p = Some cur /\ ~ precedes log m cur) ->
     marker st2 c p = Some m) /\
    (forall cur, marker st c p = Some cur -> precedes log m cur ->
     marker st2 c p = Some cur).
Proof.
  intros st c p m m' log Hlog (i & j & Hi & Hj & Hlt) st1 st2.
  assert (Hset : markRead c p m' (setMarker c p m st) = setMarker c p m st).
  { apply (markRead_not_forward c p m' m _ log i j); auto using marker_setMarker.
    lia. }
  assert (Hcases :
    st1 = setMarker c p m st \/
    (st1 = st /\ exists cur k, marker st c p = Some cur /\
                               indexOf cur log = Some k /\ j <= k)).
  { subst st1. unfold markRead. rewrite Hlog, Hj.
    destruct (marker st c p) as [cur|] eqn:Hm; [|now left].
    destruct (indexOf cur log) as [k|] eqn:Hk; [|now left].
    destruct (Nat.ltb_spec k j); [now left|].
    right. split; [reflexivity|]. exists cur, k. auto. }
  assert (H21 : st2 = st1).
  { subst st2. destruct Hcases as [-> | [-> (cur & k & Hm & Hk & Hle)]].
    - exact Hset.
    - apply (markRead_not_forward c p m' cur st log i k); auto. lia. }
  split; [exact H21|]. rewrite H21. split.
  - intros Hnotpast.
    destruct Hcases as [-> | [-> (cur & k & Hm & Hk & Hle)]].
    + apply marker_setMarker.
    + destruct Hnotpast as [Hnone | (cur' & Hm' & Hnp)]; [congruence|].
      assert (cur' = cur) by congruence. subst cur'.
      destruct (Nat.eq_dec j k) as [->|Hne].
      * rewrite Hm. f_equal. apply (indexOf_inj log cur m k); assumption.
      * exfalso. apply Hnp. exists j, k. repeat split; auto. lia.
  - intros cur Hm (j' & k & Hj' & Hk & Hlt').
    assert (j' = j) by congruence. subst j'.
    subst st1. unfold markRead. rewrite Hlog, Hj, Hm, Hk.
    destruct (Nat.ltb_spec k j); [lia | exact Hm].
Qed.

(** A fresh conversation of three messages: mark the second read, then the
    first; the marker is on the second. *)
Lemma markRead_regression_is_noop_witness :
  let st := mkStore {[ "c1" := [1; 2; 3] ]} ∅ in
  markRead "c1" "nomsa" 1 (markRead "c1" "nomsa" 2 st) = markRead "c1" "nomsa" 2 st /\
  marker (markRead "c1" "nomsa" 1 (markRead "c1" "nomsa" 2 st)) "c1" "nomsa" = Some 2.
Proof.
  intros st.
  destruct (markRead_regression_is_noop st "c1" "nomsa" 2 1 [1; 2; 3])
    as (Hnoop & Hat & _).
  - reflexivity.
  - exists 0, 1. repeat split. lia.
  - split; [exact Hnoop | apply Hat; left; reflexivity].
Defined.

End ReadMarker.

(* ===================================================================== *)
(** * Part III: further properties of the pages *)
(* ===================================================================== *)

(** ** More on filters *)

Section MoreFilterFacts.
Context {A : Type}.
Implicit Types (f g : A -> bool) (l : list A).

(** A stricter callback returns a sublist of what a laxer one returns. *)
Lemma filter_sublist_mono f g l :
  (forall x, In x l -> f x = true -> g x = true) ->
  List.filter f l `sublist_of` List.filter g l.
Proof.
  induction l as [|x l IH]; simpl; intros H; [constructor|].
  assert (IH' : List.filter f l `sublist_of` List.filter g l).
  { apply IH. intros y Hy. apply H. now right. }
  destruct (f x) eqn:Hf.
  - rewrite (H x (or_introl eq_refl) Hf). now apply sublist_skip.
  - destruct (g x); [now apply sublist_cons | exact IH'].
Qed.

Lemma filter_twice f g l :
  List.filter f (List.filter g l) = List.filter (fun x => g x && f x) l.
Proof.
  induction l as [|x l IH]; simpl; [reflexivity|].
  destruct (g x); simpl; [destruct (f x)|]; now rewrite IH.
Qed.

Lemma filter_nil_iff f l : List.filter f l = [] <-> forall x, In x l -> f x = false.
Proof.
  induction l as [|x l IH]; simpl.
  - split; [intros _ x [] | reflexivity].
  - destruct (f x) eqn:Hf.
    + split; [discriminate|]. intros H. specialize (H x (or_introl eq_refl)). congruence.
    + rewrite IH. split.
      * intros H y [->|Hy]; auto.
      * intros H y Hy. apply H. now right.
Qed.

End MoreFilterFacts.

(** ** Typing in a search box *)

Section Narrowing.
Import JsString.

(** Containment of the lower-cased strings passes from a query to any
    ASCII query that occurs in it up to case. *)
Lemma includes_narrows (t q q' : string) :
  is_ascii q' = true -> ci_substring_of q q' ->
  includes (toLowerCase t) (toLowerCase q') = true ->
  includes (toLowerCase t) (toLowerCase q) = true.
Proof.
  intros Hq' Hq. pose proof (ci_substring_of_ascii _ _ Hq Hq') as Ha.
  rewrite !includes_true_iff. apply substring_of_trans.
  apply includes_true_iff, includes_lower_ascii_iff; assumption.
Qed.

(** X1. For ASCII queries, typing more never brings an item back: whenever
    a query [q] occurs, up to case, in an ASCII query [q'], the search for
    [q'] returns a sublist of what the search for [q] returns, whatever the
    items are. Two queries with the same lower case return the same list,
    and so do two ASCII queries that differ in the case of letters only.
    For the resource list, the inbox and the dashboard. Beyond ASCII the
    first part fails: the resource titled Alpha Sigma is found by its full
    title and not by the Sigma alone. *)
Theorem search_narrows_with_the_query :
  (forall (items : list Resources.Resource) (q q' cat : string),
      is_ascii q' = true -> ci_substring_of q q' ->
      Resources.filterResources items q' cat `sublist_of`
      Resources.filterResources items q cat) /\
  (forall (items : list ChatInbox.Chat) (q q' : string),
      is_ascii q' = true -> ci_substring_of q q' ->
      ChatInbox.filterChats items q' `sublist_of` ChatInbox.filterChats items q) /\
  (forall (items : list Dashboard.Peer) (q q' : string),
      is_ascii q' = true -> ci_substring_of q q' ->
      Dashboard.filterPeers items q' `sublist_of` Dashboard.filterPeers items q) /\
  (forall (items : list Resources.Resource) (q more cat : string),
      is_ascii (q +:+ more) = true ->
      Resources.filterResources items (q +:+ more) cat `sublist_of`
      Resources.filterResources items q cat) /\
  (forall (items : list Resources.Resource) (q q' cat : string),
      toLowerCase q = toLowerCase q' ->
      Resources.filterResources items q cat = Resources.filterResources items q' cat) /\
  (forall (items : list ChatInbox.Chat) (q q' : string),
      toLowerCase q = toLowerCase q' ->
      ChatInbox.filterChats items q = ChatInbox.filterChats items q') /\
  (forall (items : list Resources.Resource) (q q' cat : string),
      is_ascii q = true -> ci_eq q q' ->
      Resources.filterResources items q cat = Resources.filterResources items q' cat) /\
  (Resources.filterResources [alphaSigma] "ΑΣ" "All" = [alphaSigma] /\
   Resources.filterResources [alphaSigma] "Σ" "All" = []).
Proof.
  assert (Hres : forall (items : list Resources.Resource) (q q' cat : string),
      is_ascii q' = true -> ci_substring_of q q' ->
      Resources.filterResources items q' cat `sublist_of`
      Resources.filterResources items q cat).
  { intros items q q' cat Ha Hq. apply filter_sublist_mono. intros r _ Hr.
    apply andb_true_iff in Hr as [Hs Hc]. apply andb_true_iff. split; [|exact Hc].
    exact (includes_narrows _ _ _ Ha Hq Hs). }
  assert (Hsame : forall (items : list Resources.Resource) (q q' cat : string),
      toLowerCase q = toLowerCase q' ->
      Resources.filterResources items q cat = Resources.filterResources items q' cat).
  { intros items q q' cat Hq. unfold Resources.filterResources.
    apply filter_ext. intros r. unfold Resources.matchesSearch. now rewrite Hq. }
  split; [exact Hres|]. split; [|split; [|split; [|split; [|split; [|split]]]]].
  - intros items q q' Ha Hq. apply filter_sublist_mono. intros c _ Hc.
    exact (includes_narrows _ _ _ Ha Hq Hc).
  - intros items q q' Ha Hq. apply filter_sublist_mono. intros c _ Hc.
    exact (includes_narrows _ _ _ Ha Hq Hc).
  - intros items q more cat Ha. apply Hres; [exact Ha | apply ci_substring_of_app].
  - exact Hsame.
  - intros items q q' Hq. unfold ChatInbox.filterChats.
    apply filter_ext. intros c. unfold ChatInbox.matchesName. now rewrite Hq.
  - intros items q q' cat Ha Hq. apply Hsame.
    pose proof (ci_eq_ascii _ _ Hq) as Ha'. rewrite Ha in Ha'.
    rewrite !toLowerCase_ascii by congruence. now apply ascii_fold_eq_iff.
  - split; vm_compute; reflexivity.
Qed.

(** X2. On the resource page the search box and the category chips work
    independently: filtering by both is filtering by one and then by the
    other, in either order; filtering a result again changes nothing; and a
    category only narrows what "All" shows. *)
Theorem resource_filters_compose :
  forall (items : list Resources.Resource) (q cat : string),
    Resources.filterResources items q cat =
      Resources.filterResources (Resources.filterResources items q "All") "" cat /\
    Resources.filterResources items q cat =
      Resources.filterResources (Resources.filterResources items "" cat) q "All" /\
    Resources.filterResources (Resources.filterResources items q cat) q cat =
      Resources.filterResources items q cat /\
    Resources.filterResources items q cat `sublist_of`
      Resources.filterResources items q "All".
Proof.
  intros items q cat. unfold Resources.filterResources.
  assert (Hempty : forall r, Resources.matchesSearch "" r = true)
    by (intros r; apply includes_empty).
  assert (Hall : forall r, Resources.matchesCategory "All" r = true)
    by reflexivity.
  repeat apply conj.
  - rewrite filter_twice. apply filter_ext. intros r.
    rewrite Hempty, Hall. now rewrite andb_true_r.
  - rewrite filter_twice. apply filter_ext. intros r.
    rewrite Hempty, Hall. simpl. rewrite andb_true_r. apply andb_comm.
  - rewrite filter_twice. apply filter_ext. intros r.
    now destruct (Resources.matchesSearch q r), (Resources.matchesCategory cat r).
  - apply filter_sublist_mono. intros r _ Hr.
    apply andb_true_iff in Hr as [Hs _]. now rewrite Hs, Hall.
Qed.

End Narrowing.

(** ** The dashboard *)

Section DashboardProperties.
Import JsString Dashboard.

Lemma isSearching_false_iff (q : string) : isSearching q = false <-> q = "".
Proof.
  destruct q; unfold isSearching, Nat.ltb; simpl; split; intros H; congruence.
Qed.

Lemma listing_empty_iff {A : Type} (l : list A) : listing l = EmptyNote <-> l = [].
Proof.
  destruct l as [|x l]; unfold listing, Nat.ltb; simpl; split; intros H;
    congruence.
Qed.

Lemma peers_ascii : forall p, In p peers -> is_ascii (name p) = true.
Proof. apply List.Forall_forall. repeat constructor. Qed.

Lemma resources_ascii : forall r, In r resources -> is_ascii (title r) = true.
Proof. apply List.Forall_forall. repeat constructor. Qed.

(** X3. On the dashboard a peer is listed exactly when the lower-cased
    query occurs in the lower-cased name, a resource exactly when it occurs
    in the lower-cased title; for an ASCII query that is exactly when the
    query occurs in the name, or the title, up to the case of letters.
    With the empty query the page is the plain dashboard: both cards, every
    peer in source order with the online dot, no resource section. With any
    other query the cards and the dots are gone, both headings count what
    is listed, and the "no peers" note replaces the list exactly when no
    name holds the query. The Kelvin sign, whose lower case is the letter
    k, finds Khotso Mokoena. *)
Theorem dashboard_search :
  (forall q : string,
    (forall p, In p (filteredPeers q) <->
               In p peers /\ substring_of (toLowerCase q) (toLowerCase (name p))) /\
    (forall r, In r (filteredResources q) <->
               In r resources /\ substring_of (toLowerCase q) (toLowerCase (title r))) /\
    (is_ascii q = true ->
       (forall p, In p (filteredPeers q) <-> In p peers /\ ci_substring_of q (name p)) /\
       (forall r, In r (filteredResources q) <->
                  In r resources /\ ci_substring_of q (title r)) /\
       (peerList (Home q) = EmptyNote <->
          forall p, In p peers -> ~ ci_substring_of q (name p))) /\
    (q = "" -> Home q = mkView true RecentPeers (Cards peers) true None) /\
    (q <> "" ->
       statsShown (Home q) = false /\
       onlineDots (Home q) = false /\
       peersHeader (Home q) = PeersFound (length (filteredPeers q)) /\
       resourcesSection (Home q) =
         Some (length (filteredResources q), listing (filteredResources q))) /\
    (peerList (Home q) = EmptyNote <->
       forall p, In p peers ->
         ~ substring_of (toLowerCase q) (toLowerCase (name p)))) /\
  (is_ascii kelvinSign = false /\
   toLowerCase kelvinSign = "k" /\
   map name (filteredPeers kelvinSign) = ["Khotso Mokoena"] /\
   peersHeader (Home kelvinSign) = PeersFound 1).
Proof.
  assert (Hnote : forall q, peerList (Home q) = EmptyNote <->
                            forall p, In p peers -> peerMatches q p = false).
  { intros q. unfold Home. cbn [peerList]. rewrite listing_empty_iff.
    unfold filteredPeers, filterPeers. apply filter_nil_iff. }
  split; [|repeat split; vm_compute; reflexivity].
  intros q. split; [|split; [|split; [|split; [|split]]]].
  - intros p. unfold filteredPeers, filterPeers, peerMatches.
    now rewrite filter_In, includes_true_iff.
  - intros r. unfold filteredResources, filterRes, resMatches.
    now rewrite filter_In, includes_true_iff.
  - intros Hq. split; [|split].
    + intros p. unfold filteredPeers, filterPeers, peerMatches.
      rewrite filter_In. split; intros [Hp H]; (split; [exact Hp|]);
        now apply (includes_lower_ascii_iff _ _ Hq (peers_ascii p Hp)).
    + intros r. unfold filteredResources, filterRes, resMatches.
      rewrite filter_In. split; intros [Hr H]; (split; [exact Hr|]);
        now apply (includes_lower_ascii_iff _ _ Hq (resources_ascii r Hr)).
    + rewrite Hnote. split; intros H p Hp.
      * intros Hc. apply (includes_lower_ascii_iff _ _ Hq (peers_ascii p Hp)) in Hc.
        specialize (H p Hp). unfold peerMatches in H. congruence.
      * destruct (peerMatches q p) eqn:Hm; [|reflexivity].
        exfalso. apply (H p Hp).
        now apply (includes_lower_ascii_iff _ _ Hq (peers_ascii p Hp)).
  - intros ->. reflexivity.
  - intros Hq. unfold Home. simpl.
    destruct (isSearching q) eqn:Hs; [auto|].
    apply isSearching_false_iff in Hs. contradiction.
  - rewrite Hnote. split; intros H p Hp.
    + intros Hc. apply includes_true_iff in Hc.
      specialize (H p Hp). unfold peerMatches in H. congruence.
    + destruct (peerMatches q p) eqn:Hm; [|reflexivity].
      exfalso. apply (H p Hp). now apply includes_true_iff.
Qed.

End DashboardProperties.

(** ** From a card to its conversation, from a conversation to its profile *)

Section LinkProperties.
Import JsString JsObject.

Lemma key_cases (k : string) :
  k = "nomsa" \/ k = "khotso" \/ k = "studygroup" \/
  (ChatDetailPage.chatData !! k = None /\
   ChatDetailPage.messagesDB !! k = None /\
   ChatProfile.profiles !! k = None).
Proof.
  destruct (String.eqb_spec k "nomsa") as [|H1]; [auto|].
  destruct (String.eqb_spec k "khotso") as [|H2]; [auto|].
  destruct (String.eqb_spec k "studygroup") as [|H3]; [auto|].
  right; right; right.
  assert (Hc : ChatDetailPage.chatData !! k = None).
  { apply not_elem_of_list_to_map. simpl.
    rewrite !not_elem_of_cons. repeat split; auto. apply not_elem_of_nil. }
  destruct (tables_same_keys k) as [Hm Hp].
  split; [exact Hc|]. split; [apply Hm | apply Hp]; exact Hc.
Qed.

Lemma get_builtin {A : Type} (obj : gmap string A) (key : string) :
  obj !! key = None -> inherited key = true -> get obj key = Builtin key.
Proof. intros Hk Hi. unfold get. now rewrite Hk, Hi. Qed.

Lemma Forall_filter {A : Type} (P : A -> Prop) (f : A -> bool) (l : list A) :
  Forall P l -> Forall P (List.filter f l).
Proof.
  intros H. apply List.Forall_forall. intros x Hx.
  apply filter_In in Hx as [Hx _]. revert x Hx. now apply List.Forall_forall.
Qed.

(** X4. Whatever is typed in the inbox's search box, every chat card that
    is listed opens, under [/chat/<id>], a conversation that renders, shows
    the name and the avatar colour of the card, and has messages. *)
Theorem inbox_cards_open_their_conversation :
  forall query : string,
    Forall
      (fun c =>
         exists u ms,
           ChatDetailPage.ChatDetail (ChatInbox.id c) =
             Page (ChatDetailPage.mkView (Own u) ms) /\
           ChatDetailPage.name u = ChatInbox.name c /\
           ChatDetailPage.color u = ChatInbox.color c /\
           ms <> [])
      (ChatInbox.filteredChats query).
Proof.
  intros query. apply Forall_filter.
  repeat constructor; (do 2 eexists; repeat split; [reflexivity .. | discriminate]).
Qed.

(** X5. Every peer card of the dashboard opens a conversation that renders.
    For the peers that have an entry in the conversation tables it shows
    their own name, initials and colour over their messages; for "sipho",
    who has none, it shows Nomsa's header over an empty conversation. *)
Theorem dashboard_cards_open_a_conversation :
  forall query : string,
    Forall
      (fun p =>
         exists u ms,
           ChatDetailPage.ChatDetail (Dashboard.id p) =
             Page (ChatDetailPage.mkView (Own u) ms) /\
           ((Dashboard.id p <> "sipho" /\
             ChatDetailPage.name u = Dashboard.name p /\
             ChatDetailPage.initials u = Dashboard.initials p /\
             ChatDetailPage.color u = Dashboard.color p /\
             ms <> []) \/
            (Dashboard.id p = "sipho" /\
             u = ChatDetailPage.nomsaUser /\ ms = [])))
      (Dashboard.filteredPeers query).
Proof.
  intros query. apply Forall_filter.
  repeat constructor; do 2 eexists; (split; [reflexivity|]).
  - left. repeat split; discriminate.
  - left. repeat split; discriminate.
  - right. repeat split.
Qed.

(** X6. For every id the conversation page and the profile page agree:
    either both throw, or both render and the header of the conversation
    carries the name, the initials and the colour of the profile. *)
Theorem conversation_and_profile_agree :
  forall id : string,
    match ChatDetailPage.ChatDetail id, ChatProfile.ChatProfilePage id with
    | Page v, Page p =>
        exists u,
          ChatDetailPage.user v = Own u /\
          ChatDetailPage.name u = ChatProfileView.name p /\
          ChatDetailPage.initials u = ChatProfileView.initials p /\
          ChatDetailPage.color u = ChatProfileView.color p
    | TypeError, TypeError => True
    | _, _ => False
    end.
Proof.
  intros id.
  unfold ChatDetailPage.ChatDetail, ChatProfile.ChatProfilePage,
    ChatDetailPage.lookupUser, ChatDetailPage.lookupMessages,
    ChatProfile.lookupProfile.
  destruct (key_cases (toLowerCase id)) as [-> | [-> | [-> | (Hc & Hm & Hp)]]].
  - eexists. repeat split.
  - eexists. repeat split.
  - eexists. repeat split.
  - destruct (inherited (toLowerCase id)) eqn:Hi.
    + rewrite (get_builtin _ _ Hc Hi), (get_builtin _ _ Hm Hi),
        (get_builtin _ _ Hp Hi). exact I.
    + rewrite (get_absent _ _ Hc Hi), (get_absent _ _ Hm Hi),
        (get_absent _ _ Hp Hi). eexists. repeat split.
Qed.

Lemma lower_has_no_capital (id k : string) : toLowerCase id = k -> no_capital k = true.
Proof. intros <-. apply toLowerCase_no_capital. Qed.

Lemma inherited_lower_iff (id : string) :
  inherited (toLowerCase id) = true <->
  toLowerCase id = "constructor" \/ toLowerCase id = "__proto__".
Proof.
  split.
  - unfold inherited, objectPrototypeKeys. simpl.
    rewrite !orb_true_iff, !String.eqb_eq.
    intros [H|[H|[H|[H|[H|[H|[H|[H|[H|[H|[H|[H|H]]]]]]]]]]]];
      auto; try discriminate H;
      apply lower_has_no_capital in H; discriminate H.
  - intros [-> | ->]; reflexivity.
Qed.

(** X7. The conversation page and the profile page throw for exactly two
    ids up to case, "constructor" and "__proto__"; for every other id they
    render. The other names of [Object.prototype] contain a capital letter
    and cannot be reached through the lower-cased id. *)
Theorem pages_throw_exactly_on_prototype_names :
  forall id : string,
    (ChatDetailPage.ChatDetail id = TypeError <->
       toLowerCase id = "constructor" \/ toLowerCase id = "__proto__") /\
    (ChatProfile.ChatProfilePage id = TypeError <->
       toLowerCase id = "constructor" \/ toLowerCase id = "__proto__").
Proof.
  intros id. rewrite <- inherited_lower_iff.
  unfold ChatDetailPage.ChatDetail, ChatProfile.ChatProfilePage,
    ChatDetailPage.lookupUser, ChatDetailPage.lookupMessages,
    ChatProfile.lookupProfile.
  destruct (key_cases (toLowerCase id)) as [-> | [-> | [-> | (Hc & Hm & Hp)]]].
  - split; split; discriminate.
  - split; split; discriminate.
  - split; split; discriminate.
  - destruct (inherited (toLowerCase id)) eqn:Hi.
    + rewrite (get_builtin _ _ Hc Hi), (get_builtin _ _ Hm Hi),
        (get_builtin _ _ Hp Hi). split; split; reflexivity.
    + rewrite (get_absent _ _ Hc Hi), (get_absent _ _ Hm Hi),
        (get_absent _ _ Hp Hi). split; split; discriminate.
Qed.

End LinkProperties.

(** ** Bubbles and the input of a conversation *)

Section BubbleProperties.
Import JsString ChatDetailPage ChatDetailView.

Lemma palette_lookup (index : nat) :
  exists c, nth_error palette (index mod 3) = Some c /\ In c palette.
Proof.
  assert (H : index mod 3 < 3) by (apply Nat.mod_upper_bound; discriminate).
  destruct (index mod 3) as [|[|[|n]]]; simpl; [eexists; split; [reflexivity|] ..|lia].
  - now left.
  - right; now left.
  - right; right; now left.
Qed.

(** X8. A bubble carries a sender label exactly when the message is not the
    user's own and has a non-empty sender name; the label then shows that
    name in one of the three palette classes (the array lookup is never out
    of range), and the classes repeat with period three along the
    conversation. *)
Theorem sender_label_shown_and_coloured :
  forall (index : nat) (msg : Message),
    (senderLabel index msg = None <->
       isMe msg = true \/ senderName msg = None \/ senderName msg = Some "") /\
    (forall cls who, senderLabel index msg = Some (cls, who) ->
       isMe msg = false /\ senderName msg = Some who /\
       exists c, cls = Some c /\ In c palette) /\
    senderLabel (index + 3) msg = senderLabel index msg.
Proof.
  intros index msg. unfold senderLabel.
  destruct (palette_lookup index) as (c & Hc & Hin).
  assert (Hper : (index + 3) mod 3 = index mod 3).
  { replace (index + 3) with (index + 1 * 3) by lia. apply Nat.Div0.mod_add. }
  rewrite Hper.
  destruct (isMe msg); [|destruct (senderName msg) as [n|]].
  - split; [split; auto|]. split; [discriminate | reflexivity].
  - unfold truthy. destruct (String.eqb_spec n "") as [->|Hn]; simpl.
    + split; [split; auto|]. split; [discriminate | reflexivity].
    + split; [|split; [|reflexivity]].
      * split; [discriminate|]. intros [H|[H|H]]; congruence.
      * intros cls who H. injection H as <- <-. eauto.
  - split; [split; auto|]. split; [discriminate | reflexivity].
Qed.

Lemma split_nonempty (sep : ascii) (s : string) : split sep s <> [].
Proof.
  destruct s as [|c s]; simpl; [discriminate|].
  destruct (Ascii.eqb c sep); [discriminate|].
  destruct (split sep s); discriminate.
Qed.

Lemma no_space_empty : ~ substring_of " " "".
Proof. intros (pre & suf & H). destruct pre; discriminate H. Qed.

Lemma no_space_cons (c : ascii) (w : string) :
  c <> " "%char -> ~ substring_of " " w -> ~ substring_of " " (String c w).
Proof.
  intros Hc Hw (pre & suf & H). destruct pre as [|d pre].
  - injection H as H _. congruence.
  - injection H as _ H. apply Hw. now exists pre, suf.
Qed.

(** X9. The placeholder of the message input is always defined: for every
    name, [name.split(' ')[0]] exists, holds no space, and is the name
    itself or the part of the name before its first space. *)
Theorem placeholder_first_word :
  forall u : ChatUser,
    exists w,
      firstWord (name u) = Some w /\
      placeholder u = Some ("Message " +:+ w +:+ "...") /\
      ~ substring_of " " w /\
      (name u = w \/ exists rest, name u = w +:+ " " +:+ rest).
Proof.
  intros u. unfold placeholder.
  assert (H : forall s, exists w,
             firstWord s = Some w /\ ~ substring_of " " w /\
             (s = w \/ exists rest, s = w +:+ " " +:+ rest)).
  { unfold firstWord. induction s as [|c s (w & Hw & Hns & Hsh)]; simpl.
    - exists "". split; [reflexivity|]. split; [apply no_space_empty | now left].
    - destruct (Ascii.eqb_spec c " "%char) as [->|Hc].
      + exists "". split; [reflexivity|]. split; [apply no_space_empty|].
        right. now exists s.
      + destruct (split " " s) as [|h t] eqn:Hs; [discriminate Hw|].
        simpl in Hw. injection Hw as ->.
        exists (String c w). split; [reflexivity|].
        split; [now apply no_space_cons|].
        destruct Hsh as [->|(rest & ->)]; [now left|].
        right. now exists rest. }
  destruct (H (name u)) as (w & Hw & Hns & Hsh).
  exists w. rewrite Hw. auto.
Qed.

End BubbleProperties.

(** ** The find-peers wizard *)

Section WizardProperties.
Import JsString FindPeers Wizard.

Lemma University_eqb_eq (a b : University) : University_eqb a b = true -> a = b.
Proof.
  destruct a, b. unfold University_eqb. simpl.
  rewrite !andb_true_iff, !strictEq_true_iff. intros [[[-> ->] ->] ->]. reflexivity.
Qed.

Lemma existsb_strictEq_In (x : string) (l : list string) :
  existsb (strictEq x) l = true -> In x l.
Proof.
  rewrite existsb_exists. intros (y & Hy & Heq).
  apply strictEq_true_iff in Heq. now subst.
Qed.

Lemma press_ok (st st' : State) (e : Event) :
  wizard_ok st -> press st e = Some st' -> wizard_ok st'.
Proof.
  intros [Hf Hu] H. unfold press in H.
  destruct (rendered st e) eqn:Hr; [|injection H as <-; now split].
  destruct e as [| |u|f]; simpl in H.
  - destruct (step st) eqn:Hs; [discriminate| |]; injection H as <-;
      (split; [exact Hf|]); simpl;
      (destruct (selectedUni st); [exact Hu | discriminate]).
  - injection H as <-. split; [exact Hf|]. simpl.
    destruct (selectedUni st); [exact Hu | discriminate].
  - injection H as <-. split; [exact Hf|]. simpl.
    unfold rendered in Hr. destruct (step st); try discriminate.
    apply existsb_exists in Hr as (v & Hv & Heq).
    apply University_eqb_eq in Heq. subst v. exists u. split; [exact Hv | reflexivity].
  - injection H as <-. unfold rendered in Hr.
    destruct (step st) eqn:Hs; try discriminate.
    split; [apply existsb_strictEq_In; exact Hr|].
    simpl. exact Hu.
Qed.

Lemma run_ok (es : list Event) :
  forall st st', wizard_ok st -> run st es = Some st' -> wizard_ok st'.
Proof.
  induction es as [|e es IH]; simpl; intros st st' Hok H.
  - injection H as <-. exact Hok.
  - destruct (press st e) as [st1|] eqn:Hp; [|discriminate].
    exact (IH st1 st' (press_ok _ _ _ Hok Hp) H).
Qed.

Lemma initial_ok : wizard_ok initial.
Proof. split; simpl; [now left | discriminate]. Qed.

Lemma find_university (u : University) :
  In u universities ->
  List.find (fun v => strictEq (uni_id v) (uni_id u)) universities = Some u /\
  uni_id u <> "".
Proof.
  intros [<-|[<-|[<-|[<-|[<-|[]]]]]]; split; (reflexivity || discriminate).
Qed.

(** X10. In every state the wizard can reach from its first render, the
    selected year is one of the five chips, and on the results screen a
    university of the list is selected, so the heading "Showing Students at
    ..." finds its name. *)
Theorem wizard_results_name_a_university :
  forall (es : list Event) (st : State),
    run initial es = Some st ->
    In (selectedFilter st) yearFilters /\
    (step st = Results ->
     exists u, In u universities /\
               selectedUni st = Some (uni_id u) /\
               shownUniversity st = Some (uni_name u)).
Proof.
  intros es st Hrun.
  destruct (run_ok es initial st initial_ok Hrun) as [Hf Hu].
  split; [exact Hf|]. intros Hs. unfold shownUniversity.
  destruct (selectedUni st) as [sel|]; [|contradiction].
  destruct Hu as (u & Hin & ->). exists u.
  destruct (find_university u Hin) as [-> _]. auto.
Qed.

(** Menu, "Find University", the Wits tile, the "Honours" chip. *)
Lemma wizard_results_name_a_university_witness :
  let wits := mkUniversity "wits" "Wits" "University of the Witwatersrand" "bg-yellow-600" in
  let st := mkState Results (Some "wits") "Honours" in
  run initial [FindUniversity; PickUniversity wits; PickFilter "Honours"] = Some st /\
  In (selectedFilter st) yearFilters /\
  shownUniversity st = Some "Wits".
Proof.
  intros wits st.
  assert (Hrun : run initial [FindUniversity; PickUniversity wits; PickFilter "Honours"]
                 = Some st) by reflexivity.
  split; [exact Hrun|].
  destruct (wizard_results_name_a_university _ _ Hrun) as [Hf _].
  split; [exact Hf | reflexivity].
Defined.

(** X11. On the results screen of every reachable state, each student
    listed studies at the university the heading names and, unless the chip
    is "All", is in the selected year. *)
Theorem wizard_lists_students_of_the_university :
  forall (es : list Event) (st : State),
    run initial es = Some st ->
    step st = Results ->
    exists u,
      In u universities /\
      shownUniversity st = Some (uni_name u) /\
      Forall
        (fun s => uni s = uni_id u /\
                  (selectedFilter st = "All" \/ year s = selectedFilter st))
        (listed st).
Proof.
  intros es st Hrun Hs.
  destruct (run_ok es initial st initial_ok Hrun) as [_ Hu].
  unfold shownUniversity, listed, filteredStudents, filterStudents.
  destruct (selectedUni st) as [sel|]; [|contradiction].
  destruct Hu as (u & Hin & ->). exists u.
  destruct (find_university u Hin) as [-> Hne].
  split; [exact Hin|]. split; [reflexivity|].
  apply List.Forall_forall. intros s Hin'.
  apply filter_In in Hin' as [_ Hk].
  apply keepStudent_iff in Hk as [H1 H2].
  apply failsUni_false_iff in H1. apply failsYear_false_iff in H2.
  simpl in H1. destruct H1 as [H1|H1]; [contradiction|]. split; assumption.
Qed.

(** UKZN with the "1st Year" chip lists Thando Z. only. *)
Lemma wizard_lists_students_of_the_university_witness :
  let ukzn := mkUniversity "ukzn" "UKZN" "University of KwaZulu-Natal" "bg-red-600" in
  let es := [FindUniversity; PickUniversity ukzn; PickFilter "1st Year"] in
  run initial es = Some (mkState Results (Some "ukzn") "1st Year") /\
  map name (listed (mkState Results (Some "ukzn") "1st Year")) = ["Thando Z."] /\
  exists u, In u universities /\
            shownUniversity (mkState Results (Some "ukzn") "1st Year") = Some (uni_name u).
Proof.
  intros ukzn es.
  assert (Hrun : run initial es = Some (mkState Results (Some "ukzn") "1st Year"))
    by reflexivity.
  split; [exact Hrun|]. split; [reflexivity|].
  destruct (wizard_lists_students_of_the_university _ _ Hrun eq_refl)
    as (u & Hin & Hshown & _).
  exists u. split; assumption.
Defined.

End WizardProperties.

(** ** The upload form under any use *)

Section UploadFormProperties.
Import JsString UploadResource UploadForm.

Lemma press_form_ok (st : State) (e : Event) : form_ok st -> form_ok (press st e).
Proof.
  intros [Hsp Hal]. destruct e as [files|title|].
  - simpl. unfold handleFileChange. destruct files as [[|f rest]|]; try (now split).
    split; [|exact Hal]. simpl.
    destruct Hsp as [(Hu & Ht & _)|Hidle]; [left|right; exact Hidle].
    repeat split; [exact Hu | exact Ht | discriminate].
  - unfold press.
    destruct (submitDisabled st || strictEq title "") eqn:Hd; [now split|].
    apply orb_false_iff in Hd as [Hd _]. unfold submitDisabled in Hd.
    destruct (file st) as [f|] eqn:Hf; [|discriminate Hd].
    simpl. split; [|exact Hal]. left. simpl.
    destruct Hsp as [(Hu & _)|(_ & Ht)]; [congruence|].
    rewrite Ht, Hf. repeat split. discriminate.
  - unfold press, fireTimer.
    destruct (timers st) as [|[d []] rest] eqn:Ht.
    + split; [|exact Hal].
      destruct Hsp as [(_ & Habs & _)|(Hu & _)]; [discriminate Habs|].
      right. split; [exact Hu | exact Ht].
    + split; simpl.
      * right. destruct Hsp as [(_ & Ht' & _)|(_ & Ht')]; [|discriminate Ht'].
        injection Ht' as _ ->. auto.
      * apply Forall_app. split; [exact Hal | repeat constructor].
Qed.

Lemma run_form_ok (es : list Event) : forall st, form_ok st -> form_ok (run st es).
Proof.
  induction es as [|e es IH]; intros st Hok; [exact Hok|].
  unfold run. simpl. apply IH. now apply press_form_ok.
Qed.

Lemma initial_form_ok : form_ok initial.
Proof. split; [right; split; reflexivity | constructor]. Qed.

(** X12. However the upload form is used from its first render, at most
    one upload is in flight: the spinner is on exactly while one 2-second
    timer is pending, and off exactly when none is; an upload in flight has
    a file; and every alert the page has shown is the demo alert. *)
Theorem upload_form_one_upload_at_a_time :
  forall es : list Event,
    let st := run initial es in
    (isUploading st = true <-> timers st = [(2000, SubmitDone)]) /\
    (isUploading st = false <-> timers st = []) /\
    (isUploading st = true -> exists f, file st = Some f) /\
    Forall (fun a => a = demoAlert) (alerts st).
Proof.
  intros es st.
  destruct (run_form_ok es initial initial_form_ok) as [Hsp Hal].
  fold st in Hsp, Hal.
  destruct Hsp as [(Hu & Ht & Hf)|(Hu & Ht)]; rewrite Hu, Ht.
  - split; [tauto|]. split; [split; discriminate|]. split; [|exact Hal].
    intros _. destruct (file st) as [f|]; [eauto | contradiction].
  - split; [split; discriminate|]. split; [tauto|]. split; [discriminate | exact Hal].
Qed.

Lemma press_keeps_file (st : State) (e : Event) (f : File) :
  file st = Some f -> exists g, file (press st e) = Some g.
Proof.
  intros Hf. destruct e as [files|title|]; simpl.
  - unfold handleFileChange. destruct files as [[|g rest]|]; simpl; eauto.
  - destruct (submitDisabled st || strictEq title ""); simpl; eauto.
  - unfold fireTimer. destruct (timers st) as [|[d []] rest]; simpl; eauto.
Qed.

(** X13. Once a file is selected, nothing the user does on the form
    un-selects it: closing the file dialog without a file keeps the previous
    one, a new choice replaces it, and submits and timers leave it alone. So
    from then on the Upload button is disabled exactly while an upload is in
    flight. *)
Theorem selected_file_stays_selected :
  forall (st : State) (f : File) (es : list Event),
    file st = Some f ->
    (exists g, file (run st es) = Some g) /\
    submitDisabled (run st es) = isUploading (run st es) /\
    file (press st (ChooseFile None)) = Some f /\
    file (press st (ChooseFile (Some []))) = Some f /\
    (forall g rest, file (press st (ChooseFile (Some (g :: rest)))) = Some g).
Proof.
  intros st f es Hf.
  assert (H : exists g, file (run st es) = Some g).
  { revert st f Hf. induction es as [|e es IH]; intros st f Hf; [simpl; eauto|].
    destruct (press_keeps_file st e f Hf) as [g Hg].
    unfold run. simpl. exact (IH _ g Hg). }
  split; [exact H|]. destruct H as [g Hg].
  split; [unfold submitDisabled; now rewrite Hg|].
  repeat split; [exact Hf | exact Hf].
Qed.

(** A chosen file survives a cancelled dialog, a submit and its timer. *)
Lemma selected_file_stays_selected_witness :
  let notes := mkFile "notes.pdf" 1024 in
  let st := press initial (ChooseFile (Some [notes])) in
  file st = Some notes /\
  exists g, file (run st [ChooseFile None; PressUpload "Notes"; TimerFires]) = Some g.
Proof.
  intros notes st. split; [reflexivity|].
  exact (proj1 (selected_file_stays_selected st notes
                  [ChooseFile None; PressUpload "Notes"; TimerFires] eq_refl)).
Defined.

End UploadFormProperties.

(** ** The uploads list under any use *)

Section UploadsListProperties.
Import ManageUploads.

Lemma step_sublist (st : State) (e : Event) : uploads (step st e) `sublist_of` uploads st.
Proof.
  destruct e as [id0 confirmed|]; simpl.
  - destruct (removeDisabled st id0); [reflexivity|].
    unfold handleDelete. destruct confirmed; reflexivity.
  - unfold fireTimer. destruct (timers st); [reflexivity|]. apply filter_sublist.
Qed.

(** X14. Whatever is clicked and whenever the timers run, the list of
    uploads only loses entries: it is always a sublist of the list the page
    started from, so no entry is added, changed, duplicated or moved, and an
    id that has gone never comes back. *)
Theorem uploads_only_shrink :
  forall (st : State) (es : list Event),
    uploads (run st es) `sublist_of` uploads st /\
    (forall u, In u (uploads (run st es)) -> In u (uploads st)) /\
    length (uploads (run st es)) <= length (uploads st).
Proof.
  intros st es.
  assert (H : uploads (run st es) `sublist_of` uploads st).
  { revert st. induction es as [|e es IH]; intros st; [reflexivity|].
    unfold run. simpl. transitivity (uploads (step st e)).
    - apply IH.
    - apply step_sublist. }
  split; [exact H|]. split.
  - intros u Hu. apply list_elem_of_In. apply list_elem_of_In in Hu.
    exact (elem_of_sublist _ _ _ Hu H).
  - now apply sublist_length.
Qed.

Lemma drain_timers (ts : list nat) :
  forall st, timers st = ts ->
    timers (run st (repeat TimerFires (length ts))) = [] /\
    uploads (run st (repeat TimerFires (length ts))) =
      List.filter (fun u => negb (pending_in ts u)) (uploads st).
Proof.
  induction ts as [|t ts IH]; intros st Ht; simpl.
  - split; [exact Ht|]. symmetry. now apply filter_all.
  - assert (Hf : timers (fireTimer st) = ts /\
                 uploads (fireTimer st) = removeId t (uploads st)).
    { unfold fireTimer. rewrite Ht. auto. }
    destruct Hf as [Ht' Hu']. destruct (IH _ Ht') as [H1 H2].
    unfold run in *. simpl. split; [exact H1|].
    rewrite H2, Hu'. unfold removeId. rewrite filter_twice.
    apply filter_ext. intros u. unfold pending_in. simpl.
    now rewrite negb_orb.
Qed.

(** X15. Once every pending timer has run, no timer is left and the list
    holds exactly the entries whose id was not pending; so two states with
    the same list and the same set of pending ids end with the same list, in
    whatever order and however often the deletes were confirmed. *)
Theorem pending_deletes_all_land :
  forall st : State,
    let settled := run st (repeat TimerFires (length (timers st))) in
    timers settled = [] /\
    uploads settled = List.filter (fun u => negb (pending_in (timers st) u)) (uploads st) /\
    (forall st' : State,
        uploads st' = uploads st ->
        (forall i, In i (timers st') <-> In i (timers st)) ->
        uploads (run st' (repeat TimerFires (length (timers st')))) = uploads settled).
Proof.
  intros st settled. subst settled.
  destruct (drain_timers (timers st) st eq_refl) as [H1 H2].
  split; [exact H1|]. split; [exact H2|].
  intros st' Hup Hsame.
  destruct (drain_timers (timers st') st' eq_refl) as [_ H2'].
  rewrite H2, H2', Hup. apply filter_ext. intros u. f_equal.
  unfold pending_in. apply eq_true_iff_eq. rewrite !existsb_exists.
  split; intros (i & Hi & Heq); exists i; (split; [apply Hsame; exact Hi | exact Heq]).
Qed.

Lemma removeId_length (id0 : nat) (l : list Upload) :
  List.NoDup (map id l) -> In id0 (map id l) ->
  S (length (removeId id0 l)) = length l.
Proof.
  induction l as [|u l IH]; simpl; intros Hnd Hin; [contradiction|].
  apply List.NoDup_cons_iff in Hnd as [Hnotin Hnd].
  destruct (Nat.eqb_spec (id u) id0) as [Heq|Hne]; simpl.
  - f_equal. f_equal. apply removeId_absent. intros v Hv Hv'.
    apply Hnotin. rewrite Heq, <- Hv'. now apply in_map.
  - f_equal. apply IH; [exact Hnd|]. destruct Hin as [Hin|Hin]; [contradiction | exact Hin].
Qed.

(** X16. When the entries of the list carry distinct ids, a confirmed
    delete of an id that is in the list removes exactly one entry, and the
    ids that remain are still distinct. *)
Theorem confirmed_delete_removes_one :
  forall (st : State) (id0 : nat),
    timers st = [] ->
    List.NoDup (map id (uploads st)) ->
    In id0 (map id (uploads st)) ->
    S (length (uploads (confirmedDelete id0 st))) = length (uploads st) /\
    List.NoDup (map id (uploads (confirmedDelete id0 st))) /\
    ~ In id0 (map id (uploads (confirmedDelete id0 st))).
Proof.
  intros st id0 Ht Hnd Hin.
  assert (Hup : uploads (confirmedDelete id0 st) = removeId id0 (uploads st)).
  { unfold confirmedDelete, handleDelete, fireTimer. simpl. now rewrite Ht. }
  rewrite Hup. split; [now apply removeId_length|]. split.
  - clear Hin Hup. induction (uploads st) as [|u l IH]; simpl; [constructor|].
    apply List.NoDup_cons_iff in Hnd as [Hnotin Hnd].
    destruct (Nat.eqb (id u) id0); simpl; [now apply IH|].
    constructor; [|now apply IH].
    intros Hc. apply Hnotin. apply in_map_iff in Hc as (v & Hv & Hvin).
    apply removeId_In in Hvin as [Hvin _]. rewrite <- Hv. now apply in_map.
  - intros Hc. apply in_map_iff in Hc as (v & Hv & Hvin).
    apply removeId_In in Hvin as [_ Hne]. contradiction.
Qed.

(** Three uploads, the second removed: two are left. *)
Lemma confirmed_delete_removes_one_witness :
  timers initial = [] /\
  List.NoDup (map id (uploads initial)) /\
  In 2 (map id (uploads initial)) /\
  S (length (uploads (confirmedDelete 2 initial))) = length (uploads initial).
Proof.
  assert (Hnd : List.NoDup (map id (uploads initial))).
  { simpl. repeat constructor; simpl; intuition discriminate. }
  assert (Hin : In 2 (map id (uploads initial))) by (simpl; auto).
  split; [reflexivity|]. split; [exact Hnd|]. split; [exact Hin|].
  exact (proj1 (confirmed_delete_removes_one initial 2 eq_refl Hnd Hin)).
Defined.

(** X17. Two deletes that overlap share the one spinner. With no delete in
    progress, confirming the removal of [a] and then of [b] leaves both
    timers pending but the spinner on [b] only, so the Remove button of [a]
    is enabled again; when the timer of [a] runs it removes [a] and clears
    the spinner, although the removal of [b] is still pending. *)
Theorem overlapping_deletes_share_the_spinner :
  forall (st : State) (a b : nat),
    timers st = [] ->
    deletingId st = None ->
    a <> b ->
    let both := run st [ClickRemove a true; ClickRemove b true] in
    let after := step both TimerFires in
    timers both = [a; b] /\
    deletingId both = Some b /\
    removeDisabled both a = false /\
    uploads both = uploads st /\
    uploads after = removeId a (uploads st) /\
    timers after = [b] /\
    deletingId after = None /\
    removeDisabled after b = false.
Proof.
  intros st a b Ht Hd Hab both after.
  assert (Hboth : both = mkState (uploads st) (Some b) [a; b] (alerts st)).
  { subst both. unfold run. simpl. unfold removeDisabled. rewrite Hd. simpl.
    destruct (Nat.eqb_spec a b) as [|_]; [contradiction|].
    unfold handleDelete. simpl. now rewrite Ht. }
  subst after. rewrite Hboth. simpl. unfold removeDisabled. simpl.
  destruct (Nat.eqb_spec b a) as [Heq|_]; [symmetry in Heq; contradiction|].
  repeat split.
Qed.

(** From the page as it loads: remove 1, remove 2, first timer. *)
Lemma overlapping_deletes_share_the_spinner_witness :
  let both := run initial [ClickRemove 1 true; ClickRemove 2 true] in
  timers initial = [] /\ deletingId initial = None /\ 1 <> 2 /\
  deletingId both = Some 2 /\
  deletingId (step both TimerFires) = None /\
  timers (step both TimerFires) = [2].
Proof.
  intros both.
  assert (H12 : 1 <> 2) by discriminate.
  destruct (overlapping_deletes_share_the_spinner initial 1 2 eq_refl eq_refl H12)
    as (_ & H2 & _ & _ & _ & H6 & H7 & _).
  split; [reflexivity|]. split; [reflexivity|]. split; [exact H12|].
  split; [exact H2|]. split; [exact H7 | exact H6].
Defined.

End UploadsListProperties.

(** ** The bottom navigation bar *)

Section BottomNavProperties.
Import JsString BottomNav.

Lemma startsWith_true_iff (s p : string) :
  startsWith s p = true <-> exists rest, s = p +:+ rest.
Proof. apply prefix_true_iff. Qed.

Lemma isActive_prefix (pathname path : string) :
  isActive pathname path = true -> exists rest, pathname = path +:+ rest.
Proof.
  unfold isActive. rewrite orb_true_iff, strictEq_true_iff, startsWith_true_iff.
  intros [-> | (rest & ->)].
  - exists "". now rewrite string_app_nil_r.
  - exists ("/" +:+ rest). apply string_app_assoc.
Qed.

(** X18. The bar is hidden exactly on the paths below "/chat/" and on
    "/profile/edit"; the test [pathname !== "/chat"] never decides, since a
    path that starts with "/chat/" is not "/chat". In particular the bar is
    shown on each of its own four destinations, and hidden on the find-peers
    wizard and on the profile views below "/chat/" as well as inside a
    conversation. *)
Theorem bottom_nav_hidden_paths :
  (forall pathname : string,
      BottomNav pathname = None <->
      (exists rest, pathname = "/chat/" +:+ rest) \/ pathname = "/profile/edit") /\
  (forall pathname : string,
      shouldHide pathname =
      startsWith pathname "/chat/" || strictEq pathname "/profile/edit") /\
  Forall (fun d => exists dots, BottomNav d = Some dots) destinations /\
  (forall id : string,
      BottomNav ("/chat/" +:+ id) = None /\
      BottomNav ("/chat/profile/" +:+ id) = None) /\
  BottomNav "/chat/new" = None.
Proof.
  assert (Hred : forall pathname : string,
      shouldHide pathname =
      startsWith pathname "/chat/" || strictEq pathname "/profile/edit").
  { intros p. unfold shouldHide.
    destruct (startsWith p "/chat/") eqn:Hs; [|reflexivity].
    apply startsWith_true_iff in Hs as [rest ->].
    destruct rest; reflexivity. }
  assert (Hnone : forall pathname : string,
      BottomNav pathname = None <->
      (exists rest, pathname = "/chat/" +:+ rest) \/ pathname = "/profile/edit").
  { intros p. unfold BottomNav. rewrite Hred.
    rewrite <- startsWith_true_iff, <- strictEq_true_iff, <- orb_true_iff.
    destruct (startsWith p "/chat/" || strictEq p "/profile/edit");
      split; intros H; congruence. }
  split; [exact Hnone|]. split; [exact Hred|]. split.
  - repeat constructor; eexists; reflexivity.
  - split; [|reflexivity]. intros id. split; apply Hnone; left.
    + now exists id.
    + exists ("profile/" +:+ id). reflexivity.
Qed.

(** X19. For every path at most one of the four dots is lit, and when the
    bar is shown each dot is lit exactly on its own section: the home dot
    on "/" only, the chat dot on "/chat" only (below "/chat/" the bar is not
    rendered at all), the resources and the profile dot on their section
    and on every path below it. So below "/resources/" the bar shows the
    resources dot alone, and below "/profile/" the profile dot alone,
    except on "/profile/edit", where there is no bar. *)
Theorem bottom_nav_at_most_one_dot :
  forall pathname : string,
    length (List.filter (fun lit : bool => lit)
              [ strictEq pathname "/"; isActive pathname "/resources";
                isActive pathname "/chat"; isActive pathname "/profile" ]) <= 1 /\
    (forall dots, BottomNav pathname = Some dots ->
        (home dots = true <-> pathname = "/") /\
        (resources dots = true <->
           pathname = "/resources" \/ exists rest, pathname = "/resources/" +:+ rest) /\
        (chat dots = true <-> pathname = "/chat") /\
        (profile dots = true <->
           pathname = "/profile" \/ exists rest, pathname = "/profile/" +:+ rest)) /\
    (forall rest,
        BottomNav ("/resources/" +:+ rest) = Some (mkDots false true false false) /\
        BottomNav ("/chat/" +:+ rest) = None /\
        (rest <> "edit" ->
           BottomNav ("/profile/" +:+ rest) = Some (mkDots false false false true))) /\
    BottomNav "/profile/edit" = None.
Proof.
  assert (Hact : forall p path, isActive p path = true <->
                                p = path \/ exists rest, p = (path +:+ "/") +:+ rest).
  { intros p path. unfold isActive.
    now rewrite orb_true_iff, strictEq_true_iff, startsWith_true_iff. }
  intros p. split; [|split; [|split; [|reflexivity]]].
  - destruct (strictEq p "/") eqn:H0;
      destruct (isActive p "/resources") eqn:H1;
      destruct (isActive p "/chat") eqn:H2;
      destruct (isActive p "/profile") eqn:H3;
      simpl; try lia; exfalso;
      repeat match goal with
             | H : strictEq _ _ = true |- _ => apply strictEq_true_iff in H
             | H : isActive _ _ = true |- _ =>
                 apply isActive_prefix in H; destruct H as [? H]
             end;
      repeat match goal with
             | H : p = _, H' : p = _ |- _ => rewrite H in H'; clear H
             end;
      match goal with
      | H : _ = _ |- _ => cbv [String.append] in H; discriminate H
      end.
  - intros dots. unfold BottomNav.
    destruct (shouldHide p) eqn:Hh; [discriminate|]. intros [= <-]. cbn [home resources chat profile].
    split; [apply strictEq_true_iff|]. split; [apply Hact|]. split; [|apply Hact].
    rewrite Hact. split; [|now left]. intros [H|[rest ->]]; [exact H|].
    exfalso. unfold shouldHide in Hh.
    assert (Hs : startsWith (("/chat" +:+ "/") +:+ rest) "/chat/" = true)
      by (apply startsWith_true_iff; now exists rest).
    rewrite Hs in Hh. destruct rest; discriminate Hh.
  - intros rest. split; [|split].
    + assert (H : isActive ("/resources/" +:+ rest) "/resources" = true)
        by (apply Hact; right; now exists rest).
      unfold BottomNav. rewrite H. reflexivity.
    + assert (H : startsWith ("/chat/" +:+ rest) "/chat/" = true)
        by (apply startsWith_true_iff; now exists rest).
      unfold BottomNav, shouldHide. rewrite H. now destruct rest.
    + intros Hne.
      assert (H : isActive ("/profile/" +:+ rest) "/profile" = true)
        by (apply Hact; right; now exists rest).
      assert (Hh : shouldHide ("/profile/" +:+ rest) = false).
      { unfold shouldHide. apply orb_false_iff. split; [reflexivity|].
        apply strictEq_false_iff. intros He. apply Hne.
        cbv [String.append] in He. now injection He. }
      unfold BottomNav. rewrite Hh, H. reflexivity.
Qed.

End BottomNavProperties.

(** ** The dark mode switch *)

Section ThemeProperties.
Import JsString ProfilePage.

Lemma isDark_true_iff (theme : Theme) : isDark theme = true <-> theme = Some "dark".
Proof.
  destruct theme as [t|]; simpl; [|split; discriminate].
  rewrite strictEq_true_iff. split; [now intros -> | now intros [= ->]].
Qed.

(** X20. A click on the switch always leaves the theme "light" or "dark",
    and the label always names the mode the click switches to. Clicks
    alternate between the two from then on; clicking twice returns to the
    starting theme exactly when that was "light" or "dark", so a theme such
    as "system" is not restored by toggling back. The page renders nothing
    until it is mounted. *)
Theorem theme_switch :
  forall theme : Theme,
    (nextTheme theme = "light" \/ nextTheme theme = "dark") /\
    (label theme = "Light Mode" <-> nextTheme theme = "light") /\
    (label theme = "Dark Mode" <-> nextTheme theme = "dark") /\
    label (toggle theme) <> label theme /\
    toggle (toggle (toggle theme)) = toggle theme /\
    (toggle (toggle theme) = theme <-> theme = Some "dark" \/ theme = Some "light") /\
    (forall mounted, ProfilePage mounted theme = None <-> mounted = false).
Proof.
  intros theme. unfold toggle, label, nextTheme, ProfilePage.
  destruct (isDark theme) eqn:Hd.
  - apply isDark_true_iff in Hd. subst theme. simpl.
    repeat split; auto; try discriminate; destruct mounted; simpl; congruence.
  - assert (Hnd : theme <> Some "dark").
    { intros H. apply isDark_true_iff in H. congruence. }
    simpl. split; [auto|]. split; [split; discriminate|].
    split; [split; reflexivity|]. split; [discriminate|]. split; [reflexivity|].
    split.
    + split; [intros <-; now right | intros [H|H]; [contradiction | now rewrite H]].
    + intros mounted. destruct mounted; simpl; split; congruence.
Qed.

End ThemeProperties.

(** ** Around the lists of the inbox and the resource page *)

Section ListViewProperties.
Import JsString ListViews.

Lemma truthy_false_iff (s : string) : truthy s = false <-> s = "".
Proof. unfold truthy. now rewrite negb_false_iff, String.eqb_eq. Qed.

Lemma chats_ascii : forall c, In c ChatInbox.chats -> is_ascii (ChatInbox.name c) = true.
Proof. apply List.Forall_forall. repeat constructor. Qed.

Lemma allResources_ascii :
  forall r, In r Resources.allResources -> is_ascii (Resources.title r) = true.
Proof. apply List.Forall_forall. repeat constructor. Qed.

(** X21. In the inbox the "Active Now" strip is shown exactly for the empty
    query, and then the heading is "Recent" and every chat is listed; for
    any other query the heading counts the cards listed. The "no chats" note
    replaces the list exactly when no lower-cased name holds the lower-cased
    query, the "no resources" note exactly when no resource passes both the
    search and the category; for an ASCII query that is when no name, or
    title, holds the query up to the case of letters. The Kelvin sign,
    whose lower case is the letter k, lists the one chat with Khotso
    Mokoena under the heading "Results (1)". A chat card carries the unread
    badge exactly when it is highlighted, that is when its unread count is
    not zero. *)
Theorem list_views :
  (forall query : string,
      (activeNowShown query = true <-> query = "") /\
      (query = "" ->
         inboxHeader query = Recent /\ inboxList query = Dashboard.Cards ChatInbox.chats) /\
      (query <> "" ->
         inboxHeader query = Results (length (ChatInbox.filteredChats query))) /\
      (inboxList query = Dashboard.EmptyNote <->
         forall c, In c ChatInbox.chats ->
           ~ substring_of (toLowerCase query) (toLowerCase (ChatInbox.name c))) /\
      (is_ascii query = true ->
         (inboxList query = Dashboard.EmptyNote <->
            forall c, In c ChatInbox.chats -> ~ ci_substring_of query (ChatInbox.name c)))) /\
  (forall searchQuery selectedCategory : string,
      (resourcesHeading searchQuery = RecentlyAdded <-> searchQuery = "") /\
      (resourcesList searchQuery selectedCategory = Dashboard.EmptyNote <->
         forall r, In r Resources.allResources ->
           ~ (substring_of (toLowerCase searchQuery) (toLowerCase (Resources.title r)) /\
              (selectedCategory = "All" \/ Resources.subject r = selectedCategory))) /\
      (is_ascii searchQuery = true ->
         (resourcesList searchQuery selectedCategory = Dashboard.EmptyNote <->
            forall r, In r Resources.allResources ->
              ~ (ci_substring_of searchQuery (Resources.title r) /\
                 (selectedCategory = "All" \/ Resources.subject r = selectedCategory))))) /\
  (inboxHeader kelvinSign = Results 1 /\
   exists c, inboxList kelvinSign = Dashboard.Cards [c] /\
             ChatInbox.name c = "Khotso Mokoena") /\
  (forall chat : ChatInbox.Chat,
      (badge chat = None <-> ChatInbox.unread chat = 0) /\
      (highlighted chat = true <-> badge chat = Some (ChatInbox.unread chat)) /\
      (highlighted chat = true <-> ChatInbox.unread chat <> 0)).
Proof.
  assert (Hinbox : forall q (P : ChatInbox.Chat -> Prop),
             (forall c, In c ChatInbox.chats ->
                        (ChatInbox.matchesName q c = true <-> P c)) ->
             (inboxList q = Dashboard.EmptyNote <->
              forall c, In c ChatInbox.chats -> ~ P c)).
  { intros q P HP. unfold inboxList. rewrite listing_empty_iff.
    unfold ChatInbox.filteredChats, ChatInbox.filterChats. rewrite filter_nil_iff.
    split; intros H c Hc.
    - intros Hm. apply (HP c Hc) in Hm. specialize (H c Hc). congruence.
    - destruct (ChatInbox.matchesName q c) eqn:Hm; [|reflexivity].
      exfalso. apply (H c Hc). now apply (HP c Hc). }
  assert (Hres : forall q cat (P : Resources.Resource -> Prop),
             (forall r, In r Resources.allResources ->
                        (Resources.matchesSearch q r = true <-> P r)) ->
             (resourcesList q cat = Dashboard.EmptyNote <->
              forall r, In r Resources.allResources ->
                ~ (P r /\ (cat = "All" \/ Resources.subject r = cat)))).
  { intros q cat P HP. unfold resourcesList. rewrite listing_empty_iff.
    unfold Resources.filteredResources, Resources.filterResources.
    rewrite filter_nil_iff. split; intros H r Hr.
    - intros [Hs Hc]. apply (HP r Hr) in Hs. apply matchesCategory_iff in Hc.
      specialize (H r Hr). simpl in H. rewrite Hs, Hc in H. discriminate H.
    - apply andb_false_iff.
      destruct (Resources.matchesSearch q r) eqn:Hs; [|now left].
      destruct (Resources.matchesCategory cat r) eqn:Hc; [|now right].
      exfalso. apply (H r Hr). split.
      + now apply (HP r Hr).
      + now apply matchesCategory_iff. }
  split; [|split; [|split]].
  - intros q. split; [|split; [|split; [|split]]].
    + unfold activeNowShown. rewrite negb_true_iff. apply truthy_false_iff.
    + intros ->. split; reflexivity.
    + intros Hq. unfold inboxHeader.
      destruct (truthy q) eqn:Ht; [reflexivity|].
      apply truthy_false_iff in Ht. contradiction.
    + apply Hinbox. intros c _. apply matchesName_lower_iff.
    + intros Hq. apply Hinbox. intros c Hc.
      apply (matchesName_ascii_iff _ _ Hq (chats_ascii c Hc)).
  - intros q cat. split; [|split].
    + unfold resourcesHeading. destruct (truthy q) eqn:Ht.
      * split; [discriminate|]. intros ->. discriminate Ht.
      * apply truthy_false_iff in Ht. split; auto.
    + apply Hres. intros r _. apply matchesSearch_lower_iff.
    + intros Hq. apply Hres. intros r Hr.
      apply (matchesSearch_ascii_iff _ _ Hq (allResources_ascii r Hr)).
  - split; [vm_compute; reflexivity|]. eexists. split; vm_compute; reflexivity.
  - intros chat. unfold badge, highlighted, Nat.ltb.
    destruct (ChatInbox.unread chat) as [|n]; simpl.
    + repeat split; try discriminate; try reflexivity; intros H; congruence.
    + repeat split; try discriminate; try reflexivity; intros H; congruence.
Qed.

End ListViewProperties.
